(** * CFO Helper: the metrics engine and the usage store

    A shallow embedding of [src/App.tsx] (the client-side metrics engine) and
    of the serverless function that fronts the key-value store.

    Numbers.  Every slider of the UI has integer bounds and an integer step,
    and the market-data refresh applies [Math.floor], so the six scenario
    parameters are integers; they are modelled in [Z].  The modules [App],
    [Server] and [Client] compute on them exactly: sums, differences and
    products in [Z], a quotient as the rational it denotes, together with
    the three non-finite results a JavaScript division can produce.  That is
    what the IEEE doubles of the program compute as long as every integer
    involved stays within 2^53 in magnitude, as in every state the sliders
    can reach.  The module [Double] gives the same computations with the
    rounding of each operation to the nearest double, for all integers; the
    statements that depend on the magnitude of the values are made on it,
    and carry the range in which the two agree.

    Time.  An ISO-8601 text produced by [toISOString] is represented by the
    instant (milliseconds since the epoch) it denotes; parsing such a text
    back with [new Date(_).getTime()] returns that instant. *)

From Stdlib Require Import ZArith QArith Qround Lia Sorted Permutation.
From stdpp Require Import gmap strings list pretty.
From Stdlib Require Import Ascii.

#[local] Open Scope Z_scope.

(** ** JavaScript numbers, as far as the program uses them *)

Module JS.

Inductive number : Type :=
| Fin (q : Q)
| PosInf
| NegInf
| NaN.

Definition of_Z (z : Z) : number := Fin (inject_Z z).

(** [a / b] on integer operands, as the exact quotient; the double it is
    rounded to is [Double.div] below.  A zero divisor gives a signed
    infinity, or NaN for [0 / 0]; the divisor of this program is never a
    negative zero. *)
Definition div (a b : Z) : number :=
  if b =? 0 then
    (if a =? 0 then NaN else if 0 <? a then PosInf else NegInf)
  else Fin (inject_Z a / inject_Z b)%Q.

(** [Math.ceil]. *)
Definition ceil (x : number) : number :=
  match x with
  | Fin q => of_Z (Qceiling q)
  | other => other
  end.

Definition Qlt_bool (x y : Q) : bool :=
  (Qnum x * QDen y <? Qnum y * QDen x).

(** [x < y]; every comparison with NaN is false. *)
Definition lt (x y : number) : bool :=
  match x, y with
  | Fin a, Fin b => Qlt_bool a b
  | NaN, _ | _, NaN => false
  | NegInf, (Fin _ | PosInf) => true
  | Fin _, PosInf => true
  | _, _ => false
  end.

(** [x > y] is [y < x]. *)
Definition gt (x y : number) : bool := lt y x.

(** [x >= y]: false on NaN, otherwise the negation of [x < y]. *)
Definition ge (x y : number) : bool :=
  match x, y with
  | NaN, _ | _, NaN => false
  | _, _ => negb (lt x y)
  end.

Definition is_finite (x : number) : Prop := exists q, x = Fin q.

End JS.

(** ** The metrics engine of [App.tsx] *)

Module App.

(** The component state the derived values are computed from
    ([employees[0]], ..., [fixedMonthlyCosts]). *)
Record params : Type := Params {
  employees : Z;
  marketingBudget : Z;
  productPrice : Z;
  currentCash : Z;
  baseCustomerCount : Z;
  fixedMonthlyCosts : Z
}.

Definition monthlySalaryCost (p : params) : Z := employees p * 60000.

Definition totalMonthlyBurn (p : params) : Z :=
  monthlySalaryCost p + marketingBudget p + fixedMonthlyCosts p.

Definition monthlyRevenue (p : params) : Z :=
  baseCustomerCount p * productPrice p.

Definition netCashFlow (p : params) : Z :=
  monthlyRevenue p - totalMonthlyBurn p.

Definition runwayMonths (p : params) : JS.number :=
  if 0 <? totalMonthlyBurn p
  then JS.div (currentCash p) (totalMonthlyBurn p)
  else JS.of_Z 999.

Definition breakEvenCustomers (p : params) : JS.number :=
  JS.ceil (JS.div (totalMonthlyBurn p) (productPrice p)).

(** The initial state of the component, which is the spec's example. *)
Definition initial : params :=
  {| employees := 5; marketingBudget := 30000; productPrice := 150;
     currentCash := 800000; baseCustomerCount := 100;
     fixedMonthlyCosts := 20000 |}.

(** An entry of [getAIRecommendations]; [icon] is the name of the icon
    component. *)
Record recommendation : Type := Recommendation {
  type : string;
  icon : string;
  title : string;
  message : string;
  color : string
}.

(** [if (c) recommendations.push(r)] *)
Definition push_if {A} (c : bool) (r : A) (l : list A) : list A :=
  if c then l ++ [r] else l.

Definition getAIRecommendations (p : params) : list recommendation :=
  let recommendations := [] in
  let recommendations :=
    push_if (JS.lt (runwayMonths p) (JS.of_Z 3))
      {| type := "critical"; icon := "AlertTriangle";
         title := "Critical Cash Situation";
         message := "Immediate action required. Consider reducing costs or raising funds within 60 days.";
         color := "text-red-400" |} recommendations in
  let recommendations :=
    push_if (0 <=? netCashFlow p)
      {| type := "positive"; icon := "CheckCircle";
         title := "Profitable Operations";
         message := "Great! Consider reinvesting profits into growth or building reserves.";
         color := "text-green-400" |} recommendations in
  let recommendations :=
    push_if ((10 <? employees p) && JS.lt (runwayMonths p) (JS.of_Z 6))
      {| type := "warning"; icon := "TrendingDown";
         title := "High Burn from Team Size";
         message := "Consider optimizing team size or increasing revenue to sustain current headcount.";
         color := "text-yellow-400" |} recommendations in
  let recommendations :=
    push_if ((productPrice p <? 100)
             && JS.gt (breakEvenCustomers p) (JS.of_Z 500))
      {| type := "opportunity"; icon := "TrendingUp";
         title := "Pricing Opportunity";
         message := "Consider raising prices. Even a 20% increase could significantly improve unit economics.";
         color := "text-blue-400" |} recommendations in
  recommendations.

(** An entry of the chart data. *)
Record point : Type := Point {
  month : string;
  cash : Z;
  revenue : Z;
  expenses : Z;
  netFlow : Z
}.

(** The months the [for] loop runs through: [month = 1; month <= 12; month++]. *)
Definition months : list Z := Eval cbv in map Z.of_nat (seq 1 12).

(** One iteration of the loop of [generateProjectionData], on the loop state
    [(cashBalance, data)]. *)
Definition projection_step (p : params) (st : Z * list point) (m : Z)
  : Z * list point :=
  let cashBalance := fst st + netCashFlow p in
  (cashBalance,
   snd st ++ [ {| month := "Month " +:+ pretty m;
                  cash := Z.max 0 cashBalance;
                  revenue := monthlyRevenue p;
                  expenses := totalMonthlyBurn p;
                  netFlow := netCashFlow p |} ]).

Definition generateProjectionData (p : params) : list point :=
  snd (fold_left (projection_step p) months (currentCash p, [])).

Definition nonneg (p : params) : Prop :=
  0 <= employees p /\ 0 <= marketingBudget p /\ 0 <= productPrice p /\
  0 <= currentCash p /\ 0 <= baseCustomerCount p /\ 0 <= fixedMonthlyCosts p.

End App.

(** ** The serverless function in front of the key-value store *)

Module Server.

(** *** Data *)

(** The usage counters record stored under ["cfo-helper-usage"].  The
    default [{ scenarios: 0, reports: 0 }] has no [lastUpdated] field. *)
Record usage : Type := Usage {
  scenarios : Z;
  reports : Z;
  lastUpdated : option N
}.

(** A JSON object whose fields the server only passes through; the fields
    are numbers, as the scenario parameters and the derived metrics are. *)
Definition payload : Type := list (string * Z).

(** [{ ...o, k1: _, ..., kn: _ }] keeps the fields of [o] that are not
    overridden by the literal. *)
Definition spread_except (ks : list string) (o : payload) : payload :=
  filter (fun f => negb (existsb (String.eqb (fst f)) ks)) o.

(** A stored scenario: [{ ...scenarioData, timestamp }]. *)
Record scenario : Type := Scenario {
  scenarioData : payload;
  timestamp : N
}.

(** The fields the report helpers read from [data.metrics], for integer
    amounts, as the component computes them. *)
Record metrics : Type := Metrics {
  totalMonthlyBurn : Z;
  monthlyRevenue : Z;
  runwayMonths : JS.number;
  employees : Z;
  productPrice : Z;
  currentCash : Z
}.

(** The body of POST /generate-report; [metrics] is absent when the body has
    no such field. *)
Record reportData : Type := ReportData {
  metrics_field : option metrics;
  other_fields : payload
}.

Record insight : Type := Insight {
  category : string;
  type : string;
  message : string
}.

Record projection : Type := Projection {
  month : Z;
  cashBalance : Z;
  revenue : Z;
  expenses : Z;
  netFlow : Z
}.

(** [enhancedReport]: the fields of the request body, with [id], [timestamp],
    [aiInsights] and [projections] added. *)
Record report : Type := Report {
  report_metrics : option metrics;
  report_fields : payload;
  id : string;
  report_timestamp : N;
  aiInsights : list insight;
  projections : list projection
}.

(** What a key of the store can hold. *)
Inductive value : Type :=
| VUsage (u : usage)
| VScenario (s : scenario)
| VReport (r : report).

Inductive exn : Type :=
| StoreError      (* a store operation rejected *)
| SyntaxError     (* [c.req.json()] on a malformed body *)
| TypeError.      (* destructuring an absent [data.metrics] *)

(** *** The environment of a request

    [faults] says, for each store operation to come, whether it throws;
    [ticks] says by how many milliseconds the clock has advanced at each
    reading to come; [console] collects what the handlers print with
    [console.log]. *)
Record world : Type := World {
  kv : gmap string value;
  clock : N;
  ticks : list N;
  faults : list bool;
  console : list string
}.

Definition set_kv (m : gmap string value) (w : world) : world :=
  {| kv := m; clock := clock w; ticks := ticks w; faults := faults w;
     console := console w |}.

Definition set_faults (fs : list bool) (w : world) : world :=
  {| kv := kv w; clock := clock w; ticks := ticks w; faults := fs;
     console := console w |}.

Inductive outcome (A : Type) : Type :=
| Return (a : A)
| Throw (e : exn).
Arguments Return {A} a.
Arguments Throw {A} e.

(** A computation that reads and changes the environment and may throw.  A
    throw keeps the changes made before it. *)
Definition M (A : Type) : Type := world -> outcome A * world.

Definition ret {A} (a : A) : M A := fun w => (Return a, w).

Definition bind {A B} (m : M A) (f : A -> M B) : M B := fun w =>
  match m w with
  | (Return a, w') => f a w'
  | (Throw e, w') => (Throw e, w')
  end.

Definition throw {A} (e : exn) : M A := fun w => (Throw e, w).

(** [try { m } catch (error) { h error }] *)
Definition try_catch {A} (m : M A) (h : exn -> M A) : M A := fun w =>
  match m w with
  | (Return a, w') => (Return a, w')
  | (Throw e, w') => h e w'
  end.

Notation "x <- m ;; k" := (bind m (fun x => k))
  (at level 100, m at next level, right associativity).
Notation "m ;;; k" := (bind m (fun _ => k))
  (at level 100, right associativity).

(** *** The store *)

(** A store operation consumes the next fault flag; when the flag is set it
    throws and leaves the table as it was. *)
Definition store_op {A} (op : gmap string value -> A * gmap string value)
  : M A := fun w =>
  match faults w with
  | true :: fs => (Throw StoreError, set_faults fs w)
  | false :: fs =>
      let (a, m) := op (kv w) in (Return a, set_kv m (set_faults fs w))
  | [] => let (a, m) := op (kv w) in (Return a, set_kv m w)
  end.

(** Modelled from the spec: [kv_store.tsx] is not among the sources.
    [get(key) -> value|absent]. *)
Definition kv_get (key : string) : M (option value) :=
  store_op (fun m => (m !! key, m)).

(** Modelled from the spec: [kv_store.tsx] is not among the sources.
    [set(key, value) -> ack]. *)
Definition kv_set (key : string) (v : value) : M unit :=
  store_op (fun m => (tt, <[key := v]> m)).

(** Modelled from the spec: [kv_store.tsx] is not among the sources.
    [getByPrefix(prefix) -> sequence of values], in an order the store
    chooses. *)
Definition kv_getByPrefix (prefix : string) : M (list value) :=
  store_op (fun m =>
    (map snd (filter (fun e => String.prefix prefix (fst e)) (map_to_list m)),
     m)).

(** *** Clock and console *)

(** [Date.now()], and the instant of [new Date()]. *)
Definition Date_now : M N := fun w =>
  let t := (clock w + hd 0 (ticks w))%N in
  (Return t,
   {| kv := kv w; clock := t; ticks := tl (ticks w); faults := faults w;
      console := console w |}).

Definition console_log (msg : string) : M unit := fun w =>
  (Return tt,
   {| kv := kv w; clock := clock w; ticks := ticks w; faults := faults w;
      console := console w ++ [msg] |}).

(** *** Responses *)

Inductive body : Type :=
| BStatus (status : string)
| BUsage (u : usage)
| BUsageSaved (success : bool) (scenarios reports : Z)
| BScenarioSaved (success : bool) (scenarioId : string)
| BScenarios (scenarios : list scenario)
| BReport (success : bool) (reportId : string) (report : report)
| BError (error : string).

Record response : Type := Response {
  json_body : body;
  status : Z
}.

(** [c.json(b)] and [c.json(b, code)] *)
Definition json (b : body) : response := {| json_body := b; status := 200 |}.
Definition json_status (b : body) (code : Z) : response :=
  {| json_body := b; status := code |}.

(** [await c.req.json()]; [None] is a body that does not parse. *)
Definition req_json {A} (b : option A) : M A :=
  match b with
  | Some a => ret a
  | None => throw SyntaxError
  end.

(** *** Report helpers *)

Definition destructure_metrics (data : reportData) : M metrics :=
  match metrics_field data with
  | Some m => ret m
  | None => throw TypeError
  end.

(** The body of [generateAIInsights], after the destructuring of
    [data.metrics]. *)
Definition insights_of (m : metrics) : list insight :=
  let insights := [] in
  (* Cash flow analysis *)
  let insights :=
    if totalMonthlyBurn m <? monthlyRevenue m then
      insights ++ [ {| category := "Cash Flow"; type := "positive";
        message := "Strong positive cash flow indicates healthy business operations." |} ]
    else
      insights ++ [ {| category := "Cash Flow"; type := "warning";
        message := "Negative cash flow requires immediate attention to extend runway." |} ] in
  (* Runway analysis *)
  let insights :=
    if JS.lt (runwayMonths m) (JS.of_Z 6) then
      insights ++ [ {| category := "Runway"; type := "critical";
        message := "Critical runway situation. Focus on revenue growth or cost reduction." |} ]
    else if JS.gt (runwayMonths m) (JS.of_Z 18) then
      insights ++ [ {| category := "Runway"; type := "opportunity";
        message := "Healthy runway provides opportunity for strategic investments." |} ]
    else insights in
  (* Pricing analysis *)
  let insights :=
    if productPrice m <? 200 then
      insights ++ [ {| category := "Pricing"; type := "opportunity";
        message := "Consider price optimization to improve unit economics." |} ]
    else insights in
  insights.

Definition generateAIInsights (data : reportData) : M (list insight) :=
  m <- destructure_metrics data ;;
  ret (insights_of m).

(** The months of [for (let month = 1; month <= 12; month++)]. *)
Definition months : list Z := Eval cbv in map Z.of_nat (seq 1 12).

(** One iteration of the loop of [generateProjections], on the loop state
    [(cashBalance, projections)]. *)
Definition projections_step (m : metrics) (st : Z * list projection) (mo : Z)
  : Z * list projection :=
  let cashBalance := fst st + (monthlyRevenue m - totalMonthlyBurn m) in
  (cashBalance,
   snd st ++ [ {| month := mo;
                  cashBalance := Z.max 0 cashBalance;
                  revenue := monthlyRevenue m;
                  expenses := totalMonthlyBurn m;
                  netFlow := monthlyRevenue m - totalMonthlyBurn m |} ]).

(** The body of [generateProjections], after the destructuring of
    [data.metrics]. *)
Definition projections_of (m : metrics) : list projection :=
  snd (fold_left (projections_step m) months (currentCash m, [])).

Definition generateProjections (data : reportData) : M (list projection) :=
  m <- destructure_metrics data ;;
  ret (projections_of m).

(** *** Sorting

    [Array.prototype.sort] with a comparator is a stable sort; it is modelled
    by the stable insertion sort, which every stable sort agrees with on a
    consistent comparator.  [compare a b <= 0] keeps [a] before [b]. *)
Fixpoint insert_by {A} (compare : A -> A -> Z) (x : A) (l : list A) : list A :=
  match l with
  | [] => [x]
  | y :: l' =>
      if compare x y <=? 0 then x :: y :: l'
      else y :: insert_by compare x l'
  end.

Fixpoint sort {A} (compare : A -> A -> Z) (l : list A) : list A :=
  match l with
  | [] => []
  | x :: l' => insert_by compare x (sort compare l')
  end.

(** [.slice(0, n)] *)
Definition slice0 {A} (n : nat) (l : list A) : list A := firstn n l.

(** [(a, b) => new Date(b.timestamp).getTime() - new Date(a.timestamp).getTime()] *)
Definition by_timestamp_desc (a b : scenario) : Z :=
  Z.of_N (timestamp b) - Z.of_N (timestamp a).

(** The values under the ["scenario-"] prefix, read as scenarios.  Only
    POST /scenario writes under that prefix, and it writes scenarios. *)
Definition as_scenarios (vs : list value) : list scenario :=
  omap (fun v => match v with VScenario s => Some s | _ => None end) vs.

(** *** Handlers *)

Definition usage_key : string := "cfo-helper-usage".

Definition default_usage : usage :=
  {| scenarios := 0; reports := 0; lastUpdated := None |}.

(** [(await kv.get("cfo-helper-usage")) || { scenarios: 0, reports: 0 }].
    Only usage records are written under that key. *)
Definition or_default (v : option value) : usage :=
  match v with
  | Some (VUsage u) => u
  | _ => default_usage
  end.

Definition get_health : M response :=
  ret (json (BStatus "ok")).

Definition get_usage : M response :=
  try_catch
    (v <- kv_get usage_key ;;
     let usageData := or_default v in
     ret (json (BUsage usageData)))
    (fun error =>
       console_log "Error loading usage data:" ;;;
       ret (json_status (BUsage default_usage) 500)).

(** The body of POST /usage: [{ scenarios, reports }]. *)
Record usage_update : Type := UsageUpdate {
  new_scenarios : Z;
  new_reports : Z
}.

Definition post_usage (b : option usage_update) : M response :=
  try_catch
    (u <- req_json b ;;
     now <- Date_now ;;
     kv_set usage_key
       (VUsage {| scenarios := new_scenarios u; reports := new_reports u;
                  lastUpdated := Some now |}) ;;;
     ret (json (BUsageSaved true (new_scenarios u) (new_reports u))))
    (fun error =>
       console_log "Error saving usage data:" ;;;
       ret (json_status (BError "Failed to save usage data") 500)).

(** The handlers of POST /scenario and POST /generate-report add one to a
    counter of the usage record; the sum is the one the doubles compute for
    a counter from -2^53 to below 2^53. *)
Definition post_scenario (b : option payload) : M response :=
  try_catch
    (scenarioData <- req_json b ;;
     now <- Date_now ;;
     let scenarioId := "scenario-" +:+ pretty now in
     stamp <- Date_now ;;
     kv_set scenarioId
       (VScenario {| scenarioData := spread_except ["timestamp"] scenarioData;
                     timestamp := stamp |}) ;;;
     (* Update scenario counter *)
     v <- kv_get usage_key ;;
     let usageData := or_default v in
     let usageData :=
       {| scenarios := scenarios usageData + 1;
          reports := reports usageData;
          lastUpdated := lastUpdated usageData |} in
     kv_set usage_key (VUsage usageData) ;;;
     ret (json (BScenarioSaved true scenarioId)))
    (fun error =>
       console_log "Error saving scenario:" ;;;
       ret (json_status (BError "Failed to save scenario") 500)).

Definition get_scenarios : M response :=
  try_catch
    (scenarios <- kv_getByPrefix "scenario-" ;;
     let sortedScenarios :=
       slice0 10 (sort by_timestamp_desc (as_scenarios scenarios)) in
     ret (json (BScenarios sortedScenarios)))
    (fun error =>
       console_log "Error loading scenarios:" ;;;
       ret (json_status (BScenarios []) 500)).

Definition post_generate_report (b : option reportData) : M response :=
  try_catch
    (reportData <- req_json b ;;
     now <- Date_now ;;
     let reportId := "report-" +:+ pretty now in
     stamp <- Date_now ;;
     insights <- generateAIInsights reportData ;;
     projs <- generateProjections reportData ;;
     let enhancedReport :=
       {| report_metrics := metrics_field reportData;
          report_fields :=
            spread_except ["id"; "timestamp"; "aiInsights"; "projections"]
              (other_fields reportData);
          id := reportId;
          report_timestamp := stamp;
          aiInsights := insights;
          projections := projs |} in
     kv_set reportId (VReport enhancedReport) ;;;
     (* Update reports counter *)
     v <- kv_get usage_key ;;
     let usageData := or_default v in
     let usageData :=
       {| scenarios := scenarios usageData;
          reports := reports usageData + 1;
          lastUpdated := lastUpdated usageData |} in
     kv_set usage_key (VUsage usageData) ;;;
     ret (json (BReport true reportId enhancedReport)))
    (fun error =>
       console_log "Error generating report:" ;;;
       ret (json_status (BError "Failed to generate report") 500)).

(** The routes of the application.  [handle] is the handler of a route, as
    registered with [app.get] and [app.post]; the request logger installed
    with [app.use] prints a line of its own before and after every request
    and reads the clock for it, around the handler. *)
Inductive request : Type :=
| GET_health
| GET_usage
| POST_usage (b : option usage_update)
| POST_scenario (b : option payload)
| GET_scenarios
| POST_generate_report (b : option reportData).

Definition handle (r : request) : M response :=
  match r with
  | GET_health => get_health
  | GET_usage => get_usage
  | POST_usage b => post_usage b
  | POST_scenario b => post_scenario b
  | GET_scenarios => get_scenarios
  | POST_generate_report b => post_generate_report b
  end.

(** A world with an empty table, no fault and a clock that stands still. *)
Definition idle : world :=
  {| kv := ∅; clock := 0; ticks := []; faults := []; console := [] |}.

(** The stored counters, as GET /usage would report them. *)
Definition stored_usage (w : world) : usage := or_default (kv w !! usage_key).

End Server.

(** ** The rest of the component of [App.tsx]: status, counters, storage *)

Module Client.

(** *** Runway status *)

Record runway_status : Type := RunwayStatus {
  color : string;
  text : string;
  level : string
}.

Definition getRunwayStatus (months : JS.number) : runway_status :=
  if JS.gt months (JS.of_Z 12) then
    {| color := "bg-green-500"; text := "Healthy"; level := "safe" |}
  else if JS.ge months (JS.of_Z 6) then
    {| color := "bg-yellow-500"; text := "Cautious"; level := "warning" |}
  else
    {| color := "bg-red-500"; text := "Critical"; level := "danger" |}.

Definition runwayStatus (p : App.params) : runway_status :=
  getRunwayStatus (App.runwayMonths p).

(** The [STATUS:] line of the text report of [handleGenerateReport]. *)
Definition report_status_line (p : App.params) : string :=
  "STATUS: " +:+ (if 0 <=? App.netCashFlow p then "PROFITABLE"
                  else "BURNING CASH").

(** *** The counters of the component *)

Record state : Type := State {
  params : App.params;
  scenariosAnalyzed : Z;
  reportsGenerated : Z
}.

(** The state setter a slider passes to [handleSliderChange]. *)
Inductive setter : Type :=
| setEmployees
| setMarketingBudget
| setProductPrice
| setCurrentCash.

Definition apply_setter (f : setter) (value : Z) (p : App.params)
  : App.params :=
  match f with
  | setEmployees =>
      {| App.employees := value;
         App.marketingBudget := App.marketingBudget p;
         App.productPrice := App.productPrice p;
         App.currentCash := App.currentCash p;
         App.baseCustomerCount := App.baseCustomerCount p;
         App.fixedMonthlyCosts := App.fixedMonthlyCosts p |}
  | setMarketingBudget =>
      {| App.employees := App.employees p;
         App.marketingBudget := value;
         App.productPrice := App.productPrice p;
         App.currentCash := App.currentCash p;
         App.baseCustomerCount := App.baseCustomerCount p;
         App.fixedMonthlyCosts := App.fixedMonthlyCosts p |}
  | setProductPrice =>
      {| App.employees := App.employees p;
         App.marketingBudget := App.marketingBudget p;
         App.productPrice := value;
         App.currentCash := App.currentCash p;
         App.baseCustomerCount := App.baseCustomerCount p;
         App.fixedMonthlyCosts := App.fixedMonthlyCosts p |}
  | setCurrentCash =>
      {| App.employees := App.employees p;
         App.marketingBudget := App.marketingBudget p;
         App.productPrice := App.productPrice p;
         App.currentCash := value;
         App.baseCustomerCount := App.baseCustomerCount p;
         App.fixedMonthlyCosts := App.fixedMonthlyCosts p |}
  end.

(** [handleSliderChange]: the next state, and the counters handed to
    [saveUsageData].  The sum is the one the doubles compute for a counter
    from -2^53 to below 2^53. *)
Definition handleSliderChange (st : state) (f : setter) (value : Z)
  : state * Server.usage_update :=
  let newCount := scenariosAnalyzed st + 1 in
  ({| params := apply_setter f value (params st);
      scenariosAnalyzed := newCount;
      reportsGenerated := reportsGenerated st |},
   {| Server.new_scenarios := newCount;
      Server.new_reports := reportsGenerated st |}).

(** The counter part of [handleGenerateReport]: the next state, and the
    counters handed to [saveUsageData]. *)
Definition handleGenerateReport (st : state)
  : state * Server.usage_update :=
  let newCount := reportsGenerated st + 1 in
  ({| params := params st;
      scenariosAnalyzed := scenariosAnalyzed st;
      reportsGenerated := newCount |},
   {| Server.new_scenarios := scenariosAnalyzed st;
      Server.new_reports := newCount |}).

(** *** [parseInt] and [toString] on the counters *)

(** The white space [parseInt] skips, among the ASCII characters: tab, line
    feed, vertical tab, form feed, carriage return and space. *)
Definition is_white_space (c : Ascii.ascii) : bool :=
  let n := Ascii.N_of_ascii c in
  ((9 <=? n) && (n <=? 13) || (n =? 32))%N.

Fixpoint skip_white_space (s : string) : string :=
  match s with
  | String c s' => if is_white_space c then skip_white_space s' else s
  | EmptyString => s
  end.

(** The value of a character as a digit of the radix, if it is one. *)
Definition digit_value (radix : N) (c : Ascii.ascii) : option N :=
  let n := Ascii.N_of_ascii c in
  let d :=
    if ((48 <=? n) && (n <=? 57))%N then Some (n - 48)%N
    else if ((97 <=? n) && (n <=? 122))%N then Some (n - 87)%N
    else if ((65 <=? n) && (n <=? 90))%N then Some (n - 55)%N
    else None in
  match d with
  | Some v => if (v <? radix)%N then Some v else None
  | None => None
  end.

(** The longest prefix of digits, read in the radix; [None] when the text
    does not start with a digit. *)
Fixpoint parse_digits (radix : N) (s : string) (acc : option N) : option N :=
  match s with
  | String c s' =>
      match digit_value radix c with
      | Some d =>
          parse_digits radix s'
            (Some (match acc with Some a => a * radix + d | None => d end)%N)
      | None => acc
      end
  | EmptyString => acc
  end.

(** [parseInt(s)] without a radix: white space, a sign, a [0x] prefix for
    radix 16, then the longest prefix of digits; NaN when there is none. *)
Definition parseInt (s : string) : JS.number :=
  let s := skip_white_space s in
  let '(sign, s) :=
    match s with
    | String "-"%char s' => (-1, s')
    | String "+"%char s' => (1, s')
    | _ => (1, s)
    end in
  let '(radix, s) :=
    match s with
    | String "0"%char (String "x"%char s') => (16%N, s')
    | String "0"%char (String "X"%char s') => (16%N, s')
    | _ => (10%N, s)
    end in
  match parse_digits radix s None with
  | Some n => JS.of_Z (sign * Z.of_N n)
  | None => JS.NaN
  end.

(** [n.toString()] of an integer counter: the decimal digits, after a minus
    sign for a negative one.  These are the digits [Number.prototype.toString]
    prints for an integer up to 2^53 in magnitude; a larger double is printed
    with the shortest digits that read back as the same double, and in
    exponent notation from 10^21 on. *)
Definition toString (n : Z) : string := pretty n.

(** *** [saveUsageData] and [loadUsageData]

    [fetch] either rejects ([None]) or resolves with the response of the
    server, whatever its status. *)

(** [response.ok]: a status in the range 200-299. *)
Definition ok (r : Server.response) : bool :=
  (200 <=? Server.status r) && (Server.status r <=? 299).

(** [saveUsageData]: the response is not looked at; when [fetch] rejects,
    the counters go to the local storage. *)
Definition saveUsageData (scenarios reports : Z)
  (fetched : option Server.response) (localStorage : gmap string string)
  : gmap string string :=
  match fetched with
  | Some _ => localStorage
  | None =>
      <["cfh-reports" := toString reports]>
        (<["cfh-scenarios" := toString scenarios]> localStorage)
  end.

(** [if (item) set(parseInt(item))]: the value passed to the setter, if it
    is called; an absent item and an empty text are falsy. *)
Definition set_if_stored (item : option string) : option JS.number :=
  match item with
  | Some EmptyString | None => None
  | Some s => Some (parseInt s)
  end.

(** [data.scenarios || 0] on an integer field. *)
Definition or_zero (field : option Z) : JS.number :=
  match field with
  | Some z => JS.of_Z z
  | None => JS.of_Z 0
  end.

(** The [scenarios] and [reports] fields of a response body that are
    numbers. *)
Definition body_scenarios (b : Server.body) : option Z :=
  match b with
  | Server.BUsage u => Some (Server.scenarios u)
  | Server.BUsageSaved _ s _ => Some s
  | _ => None
  end.

Definition body_reports (b : Server.body) : option Z :=
  match b with
  | Server.BUsage u => Some (Server.reports u)
  | Server.BUsageSaved _ _ r => Some r
  | _ => None
  end.

(** [loadUsageData]: the values passed to [setScenariosAnalyzed] and
    [setReportsGenerated], [None] for a setter that is not called.  The
    [catch] block is entered when [fetch] rejects; the server's bodies are
    JSON, so [response.json()] does not throw. *)
Definition loadUsageData (fetched : option Server.response)
  (localStorage : gmap string string)
  : option JS.number * option JS.number :=
  match fetched with
  | Some response =>
      if ok response then
        let data := Server.json_body response in
        (Some (or_zero (body_scenarios data)),
         Some (or_zero (body_reports data)))
      else (None, None)
  | None =>
      (* Fallback to localStorage *)
      let scenarios := localStorage !! "cfh-scenarios" in
      let reports := localStorage !! "cfh-reports" in
      (set_if_stored scenarios, set_if_stored reports)
  end.

(** A request that reaches the server: its response and the server's next
    world. *)
Definition served (req : Server.request) (w : Server.world)
  : option Server.response * Server.world :=
  match Server.handle req w with
  | (Server.Return r, w') => (Some r, w')
  | (Server.Throw _, w') =>
      (Some (Server.json_status (Server.BError "Internal Server Error") 500),
       w')
  end.

End Client.

(** ** The arithmetic of [App.tsx] in doubles

    The exact integers of [App] are what the component computes as long as
    every value stays within 2^53 in magnitude.  This module gives the same
    computations as the doubles perform them on operands that are integers:
    each sum, difference, product and quotient is rounded to the nearest
    double, ties to even, and overflows to an infinity. *)

Module Double.

(** A double that holds an integer, an infinity or NaN. *)
Inductive t : Type :=
| Int (z : Z)
| PosInf
| NegInf
| NaN.

(** The double nearest to an integer.  Every integer up to 2^53 in magnitude
    is a double; a larger one, with [a] in [2^(e+52), 2^(e+53)), is rounded
    to a multiple of [2^e], to the even multiple when it is half-way, and to
    an infinity when the result reaches 2^1024. *)
Definition round (z : Z) : t :=
  let a := Z.abs z in
  if a <=? 2 ^ 53 then Int z
  else
    let u := 2 ^ (Z.log2 a - 52) in
    let q := a / u in
    let r := a mod u in
    let m :=
      if 2 * r <? u then q
      else if u <? 2 * r then q + 1
      else if Z.even q then q else q + 1 in
    if 2 ^ 1024 <=? m * u then (if 0 <? z then PosInf else NegInf)
    else Int (Z.sgn z * (m * u)).

(** [x + y] *)
Definition add (x y : t) : t :=
  match x, y with
  | NaN, _ | _, NaN => NaN
  | PosInf, NegInf | NegInf, PosInf => NaN
  | PosInf, _ | _, PosInf => PosInf
  | NegInf, _ | _, NegInf => NegInf
  | Int a, Int b => round (a + b)
  end.

(** [- x] *)
Definition neg (x : t) : t :=
  match x with
  | Int a => Int (- a)
  | PosInf => NegInf
  | NegInf => PosInf
  | NaN => NaN
  end.

(** [x - y] *)
Definition sub (x y : t) : t := add x (neg y).

(** [x * y] *)
Definition mul (x y : t) : t :=
  match x, y with
  | NaN, _ | _, NaN => NaN
  | Int a, Int b => round (a * b)
  | Int a, PosInf | PosInf, Int a =>
      if a =? 0 then NaN else if 0 <? a then PosInf else NegInf
  | Int a, NegInf | NegInf, Int a =>
      if a =? 0 then NaN else if 0 <? a then NegInf else PosInf
  | PosInf, PosInf | NegInf, NegInf => PosInf
  | PosInf, NegInf | NegInf, PosInf => NegInf
  end.

(** [Math.max(0, x)] *)
Definition max0 (x : t) : t :=
  match x with
  | Int a => Int (Z.max 0 a)
  | PosInf => PosInf
  | NegInf => Int 0
  | NaN => NaN
  end.

(** [x > 0] *)
Definition is_positive (x : t) : bool :=
  match x with
  | Int a => 0 <? a
  | PosInf => true
  | NegInf | NaN => false
  end.

(** *** Division

    A quotient of two integers is in general not an integer.  The double it
    is rounded to is kept as [m / 2^s] ([m * 2^(-s)] for a negative [s]),
    and is observed through [Math.ceil] and through the comparisons with an
    integer, as the component does. *)
Inductive quotient : Type :=
| Dyadic (m : Z) (s : Z)
| QPosInf
| QNegInf
| QNaN.

(** The binary exponent of [n / d], for positive [n] and [d]: the [e] with
    [2^e <= n / d < 2^(e+1)]. *)
Definition exponent (n d : Z) : Z :=
  let e := Z.log2 n - Z.log2 d in
  if d * 2 ^ Z.max e 0 <=? n * 2 ^ Z.max (- e) 0 then e else e - 1.

(** The integer nearest to [n / d], the even one when there are two. *)
Definition nearest (n d : Z) : Z :=
  let q := n / d in
  let r := n mod d in
  if 2 * r <? d then q
  else if d <? 2 * r then q + 1
  else if Z.even q then q else q + 1.

(** [a / b] for integers other than zero: the quotient is rounded to 53
    significant bits, to fewer below 2^(-1022), where the doubles are
    2^(-1074) apart, and to an infinity when the result reaches 2^1024. *)
Definition div_round (a b : Z) : quotient :=
  let n := Z.abs a in
  let d := Z.abs b in
  let s := Z.min (52 - exponent n d) 1074 in
  let m := nearest (n * 2 ^ Z.max s 0) (d * 2 ^ Z.max (- s) 0) in
  if 2 ^ 1024 * 2 ^ Z.max s 0 <=? m * 2 ^ Z.max (- s) 0 then
    (if 0 <? Z.sgn a * Z.sgn b then QPosInf else QNegInf)
  else Dyadic (Z.sgn a * Z.sgn b * m) s.

(** [x / y].  A zero has no sign here: the divisors of the component, a
    slider value and a sum that starts with a product by 60000, are never a
    negative zero. *)
Definition div (x y : t) : quotient :=
  match x, y with
  | NaN, _ | _, NaN => QNaN
  | (PosInf | NegInf), (PosInf | NegInf) => QNaN
  | PosInf, Int b => if 0 <=? b then QPosInf else QNegInf
  | NegInf, Int b => if 0 <=? b then QNegInf else QPosInf
  | Int _, (PosInf | NegInf) => Dyadic 0 0
  | Int a, Int b =>
      if b =? 0 then
        (if a =? 0 then QNaN else if 0 <? a then QPosInf else QNegInf)
      else if a =? 0 then Dyadic 0 0
      else div_round a b
  end.

(** [Math.ceil] *)
Definition ceil (x : quotient) : t :=
  match x with
  | Dyadic m s => Int (- (- (m * 2 ^ Z.max (- s) 0) / 2 ^ Z.max s 0))
  | QPosInf => PosInf
  | QNegInf => NegInf
  | QNaN => NaN
  end.

(** A quotient against an integer; NaN compares with nothing. *)
Definition cmp (x : quotient) (k : Z) : option comparison :=
  match x with
  | Dyadic m s => Some (m * 2 ^ Z.max (- s) 0 ?= k * 2 ^ Z.max s 0)
  | QPosInf => Some Gt
  | QNegInf => Some Lt
  | QNaN => None
  end.

(** [x > k], [x >= k] and [x < k] *)
Definition gt (x : quotient) (k : Z) : bool :=
  match cmp x k with Some Gt => true | _ => false end.

Definition ge (x : quotient) (k : Z) : bool :=
  match cmp x k with Some (Gt | Eq) => true | _ => false end.

Definition lt (x : quotient) (k : Z) : bool :=
  match cmp x k with Some Lt => true | _ => false end.

(** *** The derived values of the component *)

Definition monthlySalaryCost (p : App.params) : t :=
  mul (Int (App.employees p)) (Int 60000).

Definition totalMonthlyBurn (p : App.params) : t :=
  add (add (monthlySalaryCost p) (Int (App.marketingBudget p)))
    (Int (App.fixedMonthlyCosts p)).

Definition monthlyRevenue (p : App.params) : t :=
  mul (Int (App.baseCustomerCount p)) (Int (App.productPrice p)).

Definition netCashFlow (p : App.params) : t :=
  sub (monthlyRevenue p) (totalMonthlyBurn p).

Definition runwayMonths (p : App.params) : quotient :=
  if is_positive (totalMonthlyBurn p)
  then div (Int (App.currentCash p)) (totalMonthlyBurn p)
  else Dyadic 999 0.

Definition breakEvenCustomers (p : App.params) : t :=
  ceil (div (totalMonthlyBurn p) (Int (App.productPrice p))).

(** [getRunwayStatus] of [App.tsx] on the runway of the doubles. *)
Definition getRunwayStatus (months : quotient) : Client.runway_status :=
  if gt months 12 then
    {| Client.color := "bg-green-500"; Client.text := "Healthy";
       Client.level := "safe" |}
  else if ge months 6 then
    {| Client.color := "bg-yellow-500"; Client.text := "Cautious";
       Client.level := "warning" |}
  else
    {| Client.color := "bg-red-500"; Client.text := "Critical";
       Client.level := "danger" |}.

Definition runwayStatus (p : App.params) : Client.runway_status :=
  getRunwayStatus (runwayMonths p).

(** *** The projection loops *)

Record point : Type := Point {
  month : string;
  cash : t;
  revenue : t;
  expenses : t;
  netFlow : t
}.

(** One iteration of the loop of [generateProjectionData] of [App.tsx]. *)
Definition projection_step (p : App.params) (st : t * list point) (m : Z)
  : t * list point :=
  let cashBalance := add (fst st) (netCashFlow p) in
  (cashBalance,
   snd st ++ [ {| month := "Month " +:+ pretty m;
                  cash := max0 cashBalance;
                  revenue := monthlyRevenue p;
                  expenses := totalMonthlyBurn p;
                  netFlow := netCashFlow p |} ]).

Definition generateProjectionData (p : App.params) : list point :=
  snd (fold_left (projection_step p) App.months
         (Int (App.currentCash p), [])).

Record projection : Type := Projection {
  s_month : Z;
  cashBalance : t;
  s_revenue : t;
  s_expenses : t;
  s_netFlow : t
}.

(** One iteration of the loop of the server's [generateProjections], on
    integer metrics. *)
Definition projections_step (m : Server.metrics) (st : t * list projection)
  (mo : Z) : t * list projection :=
  let net := sub (Int (Server.monthlyRevenue m))
               (Int (Server.totalMonthlyBurn m)) in
  let cashBalance := add (fst st) net in
  (cashBalance,
   snd st ++ [ {| s_month := mo;
                  cashBalance := max0 cashBalance;
                  s_revenue := Int (Server.monthlyRevenue m);
                  s_expenses := Int (Server.totalMonthlyBurn m);
                  s_netFlow := net |} ]).

Definition generateProjections (m : Server.metrics) : list projection :=
  snd (fold_left (projections_step m) Server.months
         (Int (Server.currentCash m), [])).

End Double.

(** * Notions used in the statements *)

(** ** Client and server side by side *)

Definition one_to_twelve : list Z := [1; 2; 3; 4; 5; 6; 7; 8; 9; 10; 11; 12].

(** The entry of the client's chart data for month [k]. *)
Definition client_entry (p : App.params) (k : Z) : App.point :=
  {| App.month := "Month " +:+ pretty k;
     App.cash := Z.max 0 (App.currentCash p + k * App.netCashFlow p);
     App.revenue := App.monthlyRevenue p;
     App.expenses := App.totalMonthlyBurn p;
     App.netFlow := App.netCashFlow p |}.

(** The entry of the server's projection for month [k]. *)
Definition server_entry (m : Server.metrics) (k : Z) : Server.projection :=
  {| Server.month := k;
     Server.cashBalance :=
       Z.max 0 (Server.currentCash m
                + k * (Server.monthlyRevenue m - Server.totalMonthlyBurn m));
     Server.revenue := Server.monthlyRevenue m;
     Server.expenses := Server.totalMonthlyBurn m;
     Server.netFlow := Server.monthlyRevenue m - Server.totalMonthlyBurn m |}.

(** The request body the server would receive for the client's scenario:
    the same parameters and derived metrics. *)
Definition report_input (p : App.params) (o : Server.payload)
  : Server.reportData :=
  {| Server.metrics_field := Some
       {| Server.totalMonthlyBurn := App.totalMonthlyBurn p;
          Server.monthlyRevenue := App.monthlyRevenue p;
          Server.runwayMonths := App.runwayMonths p;
          Server.employees := App.employees p;
          Server.productPrice := App.productPrice p;
          Server.currentCash := App.currentCash p |};
     Server.other_fields := o |}.

(** A chart entry and a projection entry with the same content: the client
    labels the month ["Month k"] and calls the balance [cash]. *)
Definition same_entry (c : App.point) (s : Server.projection) : Prop :=
  App.month c = "Month " +:+ pretty (Server.month s)
  /\ App.cash c = Server.cashBalance s
  /\ App.revenue c = Server.revenue s
  /\ App.expenses c = Server.expenses s
  /\ App.netFlow c = Server.netFlow s.

(** The ranges of the sliders ([min] and [max] of each [Slider]) and of the
    market-data refresh ([Math.floor(80 + Math.random() * 40)] customers,
    [Math.floor(15000 + Math.random() * 10000)] fixed costs; the upper ends
    are included, which the rounding of the sum can reach). *)
Definition in_slider_range (p : App.params) : Prop :=
  1 <= App.employees p <= 50
  /\ 0 <= App.marketingBudget p <= 200000
  /\ 10 <= App.productPrice p <= 1000
  /\ 100000 <= App.currentCash p <= 10000000
  /\ 80 <= App.baseCustomerCount p <= 120
  /\ 15000 <= App.fixedMonthlyCosts p <= 25000.

(** An integer within 2^53 in magnitude: a double, and far enough from the
    limits for its sums with such integers to be doubles again. *)
Definition within (z : Z) : Prop := - 2 ^ 53 <= z <= 2 ^ 53.

(** A counter that [+ 1] in doubles increases by exactly one. *)
Definition counter_range (c : Z) : Prop := - 2 ^ 53 <= c < 2 ^ 53.

(** The components of the parameter vector and every integer the engine
    derives from it (the partial sums of the burn, the revenue, the cash
    flow, the twelve running balances) are within 2^53.  There the doubles
    compute the sums, differences and products without rounding, and the
    rounding of a quotient does not reach the next integer, so [Math.ceil]
    and the comparisons of the rounded quotient with an integer come out as
    for the exact quotient. *)
Definition exact_range (p : App.params) : Prop :=
  within (App.employees p) /\ within (App.marketingBudget p)
  /\ within (App.productPrice p) /\ within (App.currentCash p)
  /\ within (App.baseCustomerCount p) /\ within (App.fixedMonthlyCosts p)
  /\ within (App.monthlySalaryCost p)
  /\ within (App.monthlySalaryCost p + App.marketingBudget p)
  /\ within (App.totalMonthlyBurn p)
  /\ within (App.monthlyRevenue p)
  /\ within (App.netCashFlow p)
  /\ within (App.currentCash p + 12 * App.netCashFlow p).

(** The same for the integer metrics the server's projection reads. *)
Definition exact_metrics (m : Server.metrics) : Prop :=
  within (Server.monthlyRevenue m) /\ within (Server.totalMonthlyBurn m)
  /\ within (Server.currentCash m)
  /\ within (Server.monthlyRevenue m - Server.totalMonthlyBurn m)
  /\ within (Server.currentCash m
             + 12 * (Server.monthlyRevenue m - Server.totalMonthlyBurn m)).

(** An entry of the exact model, as doubles. *)
Definition double_point (e : App.point) : Double.point :=
  {| Double.month := App.month e;
     Double.cash := Double.Int (App.cash e);
     Double.revenue := Double.Int (App.revenue e);
     Double.expenses := Double.Int (App.expenses e);
     Double.netFlow := Double.Int (App.netFlow e) |}.

Definition double_projection (e : Server.projection) : Double.projection :=
  {| Double.s_month := Server.month e;
     Double.cashBalance := Double.Int (Server.cashBalance e);
     Double.s_revenue := Double.Int (Server.revenue e);
     Double.s_expenses := Double.Int (Server.expenses e);
     Double.s_netFlow := Double.Int (Server.netFlow e) |}.

(** A hundred million customers at a hundred million a piece: a revenue
    above 2^53. *)
Definition huge_revenue : App.params :=
  {| App.employees := 5; App.marketingBudget := 30000;
     App.productPrice := 94906267; App.currentCash := 800000;
     App.baseCustomerCount := 94906267; App.fixedMonthlyCosts := 20000 |}.

(** A cash of 2^53 that grows by one a month. *)
Definition huge_cash : App.params :=
  {| App.employees := 0; App.marketingBudget := 0; App.productPrice := 1;
     App.currentCash := 9007199254740992; App.baseCustomerCount := 1;
     App.fixedMonthlyCosts := 0 |}.

(** A scenario without staff or revenue, given by its burn, price and
    cash. *)
Definition burn_only (burn price cash : Z) : App.params :=
  {| App.employees := 0; App.marketingBudget := burn;
     App.productPrice := price; App.currentCash := cash;
     App.baseCustomerCount := 0; App.fixedMonthlyCosts := 0 |}.

(** A profitable state within the slider ranges, short of cash. *)
Definition lean_and_profitable : App.params :=
  {| App.employees := 1; App.marketingBudget := 0; App.productPrice := 1000;
     App.currentCash := 100000; App.baseCustomerCount := 100;
     App.fixedMonthlyCosts := 15000 |}.

(** ** The server's table, clock and answers *)

Section ServerNotions.

Import Server.

(** The values the table holds under the keys that start with [prefix]. *)
Definition stored_under (prefix : string) (m : gmap string value)
  : list value :=
  map snd (filter (fun e => String.prefix prefix (fst e)) (map_to_list m)).

(** Newest first: every timestamp is at least every later one. *)
Definition newest_first (l : list scenario) : Prop :=
  StronglySorted (fun a b => (timestamp b <= timestamp a)%N) l.

(** [usageData.scenarios += 1] and [usageData.reports += 1] on the record. *)
Definition bump_scenarios (u : usage) : usage :=
  {| scenarios := scenarios u + 1; reports := reports u;
     lastUpdated := lastUpdated u |}.

Definition bump_reports (u : usage) : usage :=
  {| scenarios := scenarios u; reports := reports u + 1;
     lastUpdated := lastUpdated u |}.

(** What [Date.now()] returns when it is called next. *)
Definition Date_reading (w : world) : N := (clock w + hd 0%N (ticks w))%N.

(** [{ ...report, id }] *)
Definition with_id (i : string) (r : report) : report :=
  {| report_metrics := report_metrics r; report_fields := report_fields r;
     id := i; report_timestamp := report_timestamp r;
     aiInsights := aiInsights r; projections := projections r |}.



(** The usage key holds a usage record, if anything, and the keys under
    ["scenario-"] hold scenarios. *)
Definition well_shaped (m : gmap string value) : Prop :=
  (forall v, m !! usage_key = Some v -> exists u, v = VUsage u)
  /\ (forall k v, String.prefix "scenario-" k = true -> m !! k = Some v ->
        exists s, v = VScenario s).

(** None of the next [n] store operations throws. *)
Definition store_up (n : nat) (w : world) : Prop :=
  ~ In true (firstn n (faults w)).

(** The lines of the console that report an error: those the [catch] blocks
    of the handlers print, which all start with ["Error "]; the lines of the
    request logger start with an arrow. *)
Definition error_lines (w : world) : list string :=
  List.filter (String.prefix "Error ") (console w).

(** [counter + 1] in doubles, [n] times over. *)
Definition increments (n : nat) (c : Z) : Double.t :=
  Nat.iter n (fun x => Double.add x (Double.Int 1)) (Double.Int c).

(** The world after a list of requests handled one after the other. *)
Definition run_requests (reqs : list request) (w : world) : world :=
  fold_left (fun w r => snd (handle r w)) reqs w.

(** What the second reading of the clock returns. *)
Definition second_reading (w : world) : N :=
  (Date_reading w + hd 0 (tl (ticks w)))%N.

(** *** Example worlds and requests *)

(** A table that holds one scenario of an earlier day. *)
Definition one_old_scenario : world :=
  {| kv := {[ "scenario-1600000000000" :=
                VScenario {| scenarioData := [("employees", 3)];
                             timestamp := 1600000000000 |} ]};
     clock := 1700000000000; ticks := []; faults := []; console := [] |}.


(** A table that already counts five scenarios and two reports. *)
Definition counted_5_2 : world :=
  {| kv := {[ usage_key :=
                VUsage {| scenarios := 5; reports := 2;
                          lastUpdated := Some 1000%N |} ]};
     clock := 2000; ticks := []; faults := []; console := [] |}.

(** The example scenario as a report request. *)
Definition example_report : reportData :=
  {| metrics_field := Some
       {| totalMonthlyBurn := 350000; monthlyRevenue := 15000;
          runwayMonths := JS.Fin (16 # 7); employees := 5;
          productPrice := 150; currentCash := 800000 |};
     other_fields := [("breakEvenCustomers", 2334)] |}.

(** A world whose clock does not advance within the millisecond. *)
Definition same_millisecond : world :=
  {| kv := ∅; clock := 1700000000000; ticks := []; faults := [];
     console := [] |}.

(** A later request, one millisecond on. *)
Definition next_millisecond : world :=
  {| kv := ∅; clock := 1700000000001; ticks := []; faults := [];
     console := [] |}.

(** A world whose first store operation throws. *)
Definition first_operation_throws : world :=
  {| kv := ∅; clock := 1700000000000; ticks := []; faults := [true];
     console := [] |}.


End ServerNotions.

(** * Properties *)

(** ** Division in doubles

    Within 2^53 the rounding of a quotient never reaches the next integer:
    [Math.ceil] and the comparisons with an integer give what they give on
    the exact quotient. *)

Section DoubleDivision.

(** [nearest n d] is within a half of [n / d]. *)
Lemma nearest_spec (n d : Z) :
  0 < d -> - d <= 2 * (Double.nearest n d * d - n) <= d.
Proof.
  intros Hd. unfold Double.nearest.
  pose proof (Z.div_mod n d ltac:(lia)) as Hdm.
  pose proof (Z.mod_pos_bound n d Hd) as Hr.
  destruct (Z.ltb_spec (2 * (n mod d)) d);
    [| destruct (Z.ltb_spec d (2 * (n mod d)));
       [| destruct (Z.even (n / d))]]; nia.
Qed.

Lemma pow2_pos (x : Z) : 0 < 2 ^ Z.max x 0.
Proof. apply Z.pow_pos_nonneg; lia. Qed.

(** [exponent n d] is the binary exponent of [n / d]. *)
Lemma exponent_spec (n d : Z) :
  0 < n -> 0 < d ->
  d * 2 ^ Z.max (Double.exponent n d) 0
    <= n * 2 ^ Z.max (- Double.exponent n d) 0
  /\ n * 2 ^ Z.max (- Double.exponent n d) 0
     < 2 * (d * 2 ^ Z.max (Double.exponent n d) 0).
Proof.
  intros Hn Hd. unfold Double.exponent.
  destruct (Z.log2_spec n Hn) as [Ha1 Ha2].
  destruct (Z.log2_spec d Hd) as [Hb1 Hb2].
  pose proof (Z.log2_nonneg n) as Ha0.
  pose proof (Z.log2_nonneg d) as Hb0.
  set (a := Z.log2 n) in *. set (b := Z.log2 d) in *.
  rewrite !Z.pow_succ_r in * by lia.
  destruct (Z.le_gt_cases b a) as [Hab | Hab].
  - (* the quotient is at least 1/2 *)
    assert (HA : 2 ^ a = 2 ^ b * 2 ^ (a - b)).
    { rewrite <- Z.pow_add_r by lia. f_equal; lia. }
    assert (HE : 0 < 2 ^ (a - b)) by (apply Z.pow_pos_nonneg; lia).
    replace (Z.max (a - b) 0) with (a - b) by lia.
    replace (Z.max (- (a - b)) 0) with 0 by lia.
    change (2 ^ 0) with 1.
    destruct (Z.leb_spec (d * 2 ^ (a - b)) (n * 1)) as [Ht | Ht].
    + replace (Z.max (a - b) 0) with (a - b) by lia.
      replace (Z.max (- (a - b)) 0) with 0 by lia.
      change (2 ^ 0) with 1.
      generalize dependent (2 ^ (a - b)). generalize dependent (2 ^ a).
      generalize dependent (2 ^ b). intros. nia.
    + destruct (Z.eq_dec a b) as [Heq | Hne].
      * replace (a - b) with 0 in * by lia.
        change (Z.max (0 - 1) 0) with 0. change (Z.max (- (0 - 1)) 0) with 1.
        change (2 ^ 0) with 1 in *. change (2 ^ 1) with 2. nia.
      * replace (Z.max (a - b - 1) 0) with (a - b - 1) by lia.
        replace (Z.max (- (a - b - 1)) 0) with 0 by lia.
        change (2 ^ 0) with 1.
        assert (HE2 : 2 ^ (a - b) = 2 * 2 ^ (a - b - 1)).
        { rewrite <- Z.pow_succ_r by lia. f_equal; lia. }
        assert (0 < 2 ^ (a - b - 1)) by (apply Z.pow_pos_nonneg; lia).
        generalize dependent (2 ^ (a - b - 1)).
        generalize dependent (2 ^ (a - b)). generalize dependent (2 ^ a).
        generalize dependent (2 ^ b). intros. nia.
  - (* the quotient is below 2 *)
    assert (HB : 2 ^ b = 2 ^ a * 2 ^ (b - a)).
    { rewrite <- Z.pow_add_r by lia. f_equal; lia. }
    assert (HE : 0 < 2 ^ (b - a)) by (apply Z.pow_pos_nonneg; lia).
    replace (Z.max (a - b) 0) with 0 by lia.
    replace (Z.max (- (a - b)) 0) with (b - a) by lia.
    change (2 ^ 0) with 1.
    destruct (Z.leb_spec (d * 1) (n * 2 ^ (b - a))) as [Ht | Ht].
    + replace (Z.max (a - b) 0) with 0 by lia.
      replace (Z.max (- (a - b)) 0) with (b - a) by lia.
      change (2 ^ 0) with 1.
      generalize dependent (2 ^ (b - a)). generalize dependent (2 ^ a).
      generalize dependent (2 ^ b). intros. nia.
    + replace (Z.max (a - b - 1) 0) with 0 by lia.
      replace (Z.max (- (a - b - 1)) 0) with (b - a + 1) by lia.
      change (2 ^ 0) with 1.
      replace (2 ^ (b - a + 1)) with (2 * 2 ^ (b - a))
        by (rewrite <- Z.pow_succ_r by lia; f_equal; lia).
      generalize dependent (2 ^ (b - a)). generalize dependent (2 ^ a).
      generalize dependent (2 ^ b). intros. nia.
Qed.

(** A quotient by a divisor up to 2^53 is far above the smallest
    doubles. *)
Lemma exponent_low (n d : Z) :
  0 < n -> 0 < d -> d <= 2 ^ 53 -> - 54 < Double.exponent n d.
Proof.
  intros Hn Hd Hd'. destruct (exponent_spec n d Hn Hd) as [_ H].
  destruct (Z.le_gt_cases 0 (Double.exponent n d)) as [| Hneg]; [lia |].
  replace (Z.max (Double.exponent n d) 0) with 0 in H by lia.
  replace (Z.max (- Double.exponent n d) 0) with (- Double.exponent n d) in H
    by lia.
  change (2 ^ 0) with 1 in H.
  destruct (Z.le_gt_cases (Double.exponent n d) (- 54)) as [Hlow |]; [| lia].
  exfalso.
  assert (2 ^ 54 <= 2 ^ (- Double.exponent n d))
    by (apply Z.pow_le_mono_r; lia).
  change (2 ^ 53) with 9007199254740992 in *.
  change (2 ^ 54) with 18014398509481984 in *. nia.
Qed.

(** The rounded quotient, scaled to an integer, against an integer. *)
Lemma nearest_sign (n d U V m k : Z) :
  1 <= n <= 2 ^ 53 -> 1 <= d <= 2 ^ 53 ->
  1 <= U -> 1 <= V -> U = 1 \/ V = 1 ->
  2 ^ 52 * (d * V) <= n * U ->
  - (d * V) <= 2 * (m * (d * V) - n * U) <= d * V ->
  (k * d < n -> k * U < m * V)
  /\ (n < k * d -> m * V < k * U)
  /\ (n = k * d -> m * V = k * U).
Proof.
  change (2 ^ 53) with 9007199254740992. change (2 ^ 52) with 4503599627370496.
  intros Hn Hd HU HV [-> | ->] Hnorm Hround.
  - (* the divisor is scaled *)
    assert (HdV : d * V <= 2) by nia.
    assert (Hcase : (d = 1 /\ V = 1) \/ (d = 2 /\ V = 1) \/ (d = 1 /\ V = 2))
      by nia.
    destruct Hcase as [[-> ->] | [[-> ->] | [-> ->]]]; repeat split; nia.
  - (* the dividend is scaled *)
    rewrite !Z.mul_1_r in *.
    repeat split.
    + intros Hk. destruct (Z.le_gt_cases (m * 1) (k * U)) as [Hle |]; [| lia].
      exfalso.
      assert (H1 : U <= n * U - m * d) by nia.
      assert (H2 : d = 2 * U) by nia.
      subst d. nia.
    + intros Hk. destruct (Z.le_gt_cases (k * U) (m * 1)) as [Hle |]; [| lia].
      exfalso.
      assert (H1 : U <= m * d - n * U) by nia.
      assert (H2 : d = 2 * U) by nia.
      subst d. nia.
    + intros ->. nia.
Qed.

(** The division of two integers within 2^53: the scaled quotient is rounded
    without crossing an integer. *)
Lemma div_round_pos (a b : Z) :
  1 <= a <= 2 ^ 53 -> 1 <= b <= 2 ^ 53 ->
  exists m s,
    Double.div_round a b = Double.Dyadic m s
    /\ 0 < m
    /\ forall k, (k * b < a -> k * 2 ^ Z.max s 0 < m * 2 ^ Z.max (- s) 0)
              /\ (a < k * b -> m * 2 ^ Z.max (- s) 0 < k * 2 ^ Z.max s 0)
              /\ (a = k * b -> m * 2 ^ Z.max (- s) 0 = k * 2 ^ Z.max s 0).
Proof.
  intros Ha Hb. unfold Double.div_round.
  rewrite (Z.abs_eq a), (Z.abs_eq b) by lia.
  rewrite (Z.sgn_pos a), (Z.sgn_pos b) by lia.
  pose proof (exponent_low a b ltac:(lia) ltac:(lia) ltac:(lia)) as He.
  destruct (exponent_spec a b ltac:(lia) ltac:(lia)) as [Hlo Hhi].
  set (e := Double.exponent a b) in *.
  replace (Z.min (52 - e) 1074) with (52 - e) by lia.
  set (s := 52 - e).
  set (U := 2 ^ Z.max s 0). set (V := 2 ^ Z.max (- s) 0).
  assert (HU : 1 <= U) by (pose proof (pow2_pos s); unfold U; lia).
  assert (HV : 1 <= V) by (pose proof (pow2_pos (- s)); unfold V; lia).
  assert (HUV : U = 1 \/ V = 1).
  { destruct (Z.le_gt_cases 0 s).
    - right. unfold V. now replace (Z.max (- s) 0) with 0 by lia.
    - left. unfold U. now replace (Z.max s 0) with 0 by lia. }
  assert (Hnorm : 2 ^ 52 * (b * V) <= a * U).
  { unfold U, V, s. destruct (Z.le_gt_cases e 52) as [He52 | He52].
    - replace (Z.max (- (52 - e)) 0) with 0 by lia.
      replace (Z.max (52 - e) 0) with (52 - e) by lia.
      change (2 ^ 0) with 1.
      destruct (Z.le_gt_cases 0 e) as [He0 | He0].
      + replace (Z.max e 0) with e in * by lia.
        replace (Z.max (- e) 0) with 0 in * by lia.
        change (2 ^ 0) with 1 in *.
        assert (Hp : 2 ^ 52 = 2 ^ e * 2 ^ (52 - e)).
        { rewrite <- Z.pow_add_r by lia. f_equal; lia. }
        assert (0 < 2 ^ (52 - e)) by (apply Z.pow_pos_nonneg; lia).
        rewrite Hp. generalize dependent (2 ^ (52 - e)).
        generalize dependent (2 ^ e). intros. nia.
      + replace (Z.max e 0) with 0 in * by lia.
        replace (Z.max (- e) 0) with (- e) in * by lia.
        change (2 ^ 0) with 1 in *.
        assert (Hp : 2 ^ (52 - e) = 2 ^ 52 * 2 ^ (- e)).
        { rewrite <- Z.pow_add_r by lia. f_equal; lia. }
        rewrite Hp. generalize dependent (2 ^ (- e)). intros. nia.
    - replace (Z.max (- (52 - e)) 0) with (e - 52) by lia.
      replace (Z.max (52 - e) 0) with 0 by lia.
      replace (Z.max e 0) with e in * by lia.
      replace (Z.max (- e) 0) with 0 in * by lia.
      change (2 ^ 0) with 1 in *.
      assert (Hp : 2 ^ e = 2 ^ 52 * 2 ^ (e - 52)).
      { rewrite <- Z.pow_add_r by lia. f_equal; lia. }
      rewrite Hp in Hlo. generalize dependent (2 ^ (e - 52)). intros. nia. }
  assert (HD : 0 < b * V) by nia.
  pose proof (nearest_spec (a * U) (b * V) HD) as Hround.
  set (m := Double.nearest (a * U) (b * V)) in *.
  assert (Hm : 0 < m).
  { change (2 ^ 52) with 4503599627370496 in Hnorm. nia. }
  assert (Hsmall : m * V < 2 ^ 1024 * U).
  { assert (Hbig : 2 ^ 55 <= 2 ^ 1024) by (apply Z.pow_le_mono_r; lia).
    change (2 ^ 55) with 36028797018963968 in Hbig.
    change (2 ^ 53) with 9007199254740992 in *.
    change (2 ^ 52) with 4503599627370496 in *.
    generalize dependent (2 ^ 1024). intros C HC.
    destruct HUV as [HU1 | HV1].
    - rewrite HU1 in *. assert (b * V <= 2) by nia.
      assert (m * (b * V) <= a + 1) by nia.
      assert (m * V <= a + 1) by nia. lia.
    - rewrite HV1 in *. rewrite !Z.mul_1_r in *.
      assert (m * b <= a * U + b) by nia.
      assert (m <= a * U + 1) by nia. nia. }
  destruct (Z.leb_spec (2 ^ 1024 * U) (m * V)); [lia |].
  exists m, s. split; [f_equal; lia |]. split; [exact Hm |].
  intros k. fold U V.
  apply (nearest_sign a b U V m k); assumption.
Qed.

Lemma div_round_opp (a b : Z) :
  0 < a -> 0 < b ->
  Double.div_round (- a) b
  = match Double.div_round a b with
    | Double.Dyadic m s => Double.Dyadic (- m) s
    | Double.QPosInf => Double.QNegInf
    | Double.QNegInf => Double.QPosInf
    | Double.QNaN => Double.QNaN
    end.
Proof.
  intros Ha Hb. unfold Double.div_round.
  rewrite Z.abs_opp, (Z.sgn_neg (- a)), (Z.sgn_pos a), (Z.sgn_pos b) by lia.
  destruct (_ <=? _); [reflexivity |]. f_equal; lia.
Qed.

(** The double quotient of two integers within 2^53 compares with every
    integer as the exact quotient does. *)
Lemma div_within (a b : Z) :
  - 2 ^ 53 <= a <= 2 ^ 53 -> 1 <= b <= 2 ^ 53 ->
  exists m s,
    Double.div (Double.Int a) (Double.Int b) = Double.Dyadic m s
    /\ forall k, (m * 2 ^ Z.max (- s) 0 ?= k * 2 ^ Z.max s 0) = (a ?= k * b).
Proof.
  intros Ha Hb. unfold Double.div.
  destruct (Z.eqb_spec b 0); [lia |].
  destruct (Z.eqb_spec a 0) as [-> | Hnz].
  - exists 0, 0. split; [reflexivity |]. intros k.
    change (Z.max (- 0) 0) with 0. change (Z.max 0 0) with 0.
    change (2 ^ 0) with 1.
    destruct (Z.compare_spec 0 (k * b)), (Z.compare_spec (0 * 1) (k * 1));
      try reflexivity; nia.
  - destruct (Z.lt_ge_cases 0 a) as [Hpos | Hneg].
    + destruct (div_round_pos a b ltac:(lia) Hb) as (m & s & -> & _ & H).
      exists m, s. split; [reflexivity |]. intros k.
      destruct (H k) as (H1 & H2 & H3).
      destruct (Z.compare_spec a (k * b)) as [Heq | Hlt | Hgt].
      * apply Z.compare_eq_iff. auto.
      * apply Z.compare_lt_iff. auto.
      * apply Z.compare_gt_iff. auto.
    + replace (Double.div_round a b) with (Double.div_round (- - a) b)
        by now rewrite Z.opp_involutive.
      rewrite div_round_opp by lia.
      destruct (div_round_pos (- a) b ltac:(lia) Hb) as (m & s & -> & _ & H).
      exists (- m), s. split; [reflexivity |]. intros k.
      destruct (H (- k)) as (H1 & H2 & H3).
      destruct (Z.compare_spec a (k * b)) as [Heq | Hlt | Hgt].
      * apply Z.compare_eq_iff.
        assert (m * 2 ^ Z.max (- s) 0 = - k * 2 ^ Z.max s 0) by (apply H3; lia).
        lia.
      * apply Z.compare_lt_iff.
        assert (- k * 2 ^ Z.max s 0 < m * 2 ^ Z.max (- s) 0) by (apply H1; lia).
        lia.
      * apply Z.compare_gt_iff.
        assert (m * 2 ^ Z.max (- s) 0 < - k * 2 ^ Z.max s 0) by (apply H2; lia).
        lia.
Qed.

Lemma cmp_div (a b k : Z) :
  - 2 ^ 53 <= a <= 2 ^ 53 -> 1 <= b <= 2 ^ 53 ->
  Double.cmp (Double.div (Double.Int a) (Double.Int b)) k = Some (a ?= k * b).
Proof.
  intros Ha Hb. destruct (div_within a b Ha Hb) as (m & s & -> & H).
  cbn [Double.cmp]. now rewrite H.
Qed.

(** [Math.ceil] of the double quotient is the ceiling of the exact
    quotient. *)
Lemma ceil_div (a b : Z) :
  - 2 ^ 53 <= a <= 2 ^ 53 -> 1 <= b <= 2 ^ 53 ->
  Double.ceil (Double.div (Double.Int a) (Double.Int b))
  = Double.Int (- (- a / b)).
Proof.
  intros Ha Hb.
  set (c := - (- a / b)).
  assert (Hc : (c - 1) * b < a <= c * b).
  { unfold c. pose proof (Z.div_mod (- a) b ltac:(lia)).
    pose proof (Z.mod_pos_bound (- a) b ltac:(lia)). nia. }
  destruct (div_within a b Ha Hb) as (m & s & -> & H).
  pose proof (H c) as Hle. pose proof (H (c - 1)) as Hgt.
  cbn [Double.ceil].
  pose proof (pow2_pos s) as HU. pose proof (pow2_pos (- s)) as HV.
  set (U := 2 ^ Z.max s 0) in *. set (x := m * 2 ^ Z.max (- s) 0) in *.
  assert (Hx1 : x <= c * U).
  { destruct (Z.compare_spec x (c * U)) as [| | Hlt]; try lia.
    symmetry in Hle. pose proof (proj1 (Z.compare_gt_iff _ _) Hle). lia. }
  assert (Hx2 : (c - 1) * U < x).
  { destruct (Z.compare_spec x ((c - 1) * U)) as [Heq | Hlt | ]; try lia.
    - symmetry in Hgt. pose proof (proj1 (Z.compare_eq_iff _ _) Hgt). lia.
    - symmetry in Hgt. pose proof (proj1 (Z.compare_lt_iff _ _) Hgt). lia. }
  f_equal.
  pose proof (Z.div_mod (- x) U ltac:(lia)).
  pose proof (Z.mod_pos_bound (- x) U ltac:(lia)). nia.
Qed.

End DoubleDivision.

(** ** Metrics engine *)

Section Metrics.

Import App.

Lemma Qlt_bool_iff (x y : Q) : JS.Qlt_bool x y = true <-> (x < y)%Q.
Proof. unfold JS.Qlt_bool, Qlt. apply Z.ltb_lt. Qed.

(** A division by a non-zero integer is the rational quotient. *)
Lemma div_nonzero (a b : Z) :
  b <> 0 -> JS.div a b = JS.Fin (inject_Z a / inject_Z b).
Proof.
  intros Hb. unfold JS.div.
  destruct (Z.eqb_spec b 0); [contradiction | reflexivity].
Qed.

(** [Math.ceil(a / b)] on integers, by integer division. *)
Lemma Qceiling_div (a b : Z) :
  Qceiling (inject_Z a / inject_Z b) = - ((- a) / b).
Proof.
  unfold Qceiling. f_equal. rewrite Zdiv_Qdiv.
  apply Qfloor_comp. rewrite inject_Z_opp. unfold Qdiv. ring.
Qed.

(** The integer ceiling of [a / b] for a positive [b], by its two bounds. *)
Lemma Qceiling_div_bounds (a b : Z) :
  0 < b ->
  (Qceiling (inject_Z a / inject_Z b) - 1) * b < a
  /\ a <= Qceiling (inject_Z a / inject_Z b) * b.
Proof.
  intros Hb. rewrite Qceiling_div.
  pose proof (Z.div_mod (- a) b ltac:(lia)) as Hdm.
  pose proof (Z.mod_pos_bound (- a) b Hb) as Hm.
  nia.
Qed.

(** Within 2^53 an integer is a double. *)
Lemma round_within (z : Z) : within z -> Double.round z = Double.Int z.
Proof.
  unfold within, Double.round. change (2 ^ 53) with 9007199254740992.
  intros H. destruct (Z.leb_spec (Z.abs z) 9007199254740992); [reflexivity |].
  lia.
Qed.

(** Within 2^53 the doubles compute the burn, the revenue and the cash flow
    of the exact model. *)
Lemma double_burn (p : params) :
  within (monthlySalaryCost p) ->
  within (monthlySalaryCost p + marketingBudget p) ->
  within (totalMonthlyBurn p) ->
  Double.totalMonthlyBurn p = Double.Int (totalMonthlyBurn p).
Proof.
  intros H1 H2 H3.
  unfold Double.totalMonthlyBurn, Double.monthlySalaryCost.
  cbn [Double.mul]. fold (monthlySalaryCost p).
  rewrite round_within by exact H1.
  cbn [Double.add]. rewrite round_within by exact H2.
  cbn [Double.add]. now rewrite round_within by exact H3.
Qed.

Lemma double_revenue (p : params) :
  within (monthlyRevenue p) ->
  Double.monthlyRevenue p = Double.Int (monthlyRevenue p).
Proof.
  intros H. unfold Double.monthlyRevenue. cbn [Double.mul].
  fold (monthlyRevenue p). now rewrite round_within by exact H.
Qed.

Lemma double_net (p : params) :
  exact_range p -> Double.netCashFlow p = Double.Int (netCashFlow p).
Proof.
  intros (_ & _ & _ & _ & _ & _ & H1 & H2 & H3 & H4 & H5 & _).
  unfold Double.netCashFlow. rewrite double_burn, double_revenue by assumption.
  cbn [Double.sub Double.neg Double.add].
  rewrite Z.add_opp_r. fold (netCashFlow p).
  now rewrite round_within by exact H5.
Qed.

Lemma double_succ (c : Z) :
  counter_range c ->
  Double.add (Double.Int c) (Double.Int 1) = Double.Int (c + 1).
Proof.
  intros H. cbn [Double.add]. apply round_within.
  unfold counter_range, within in *.
  change (2 ^ 53) with 9007199254740992 in *. lia.
Qed.

(** Within the exact range the runway of the doubles compares with every
    integer as the exact quotient does, and the break-even count of the
    doubles is the integer ceiling of the exact quotient. *)
Lemma double_runway (p : params) :
  exact_range p ->
  Double.runwayMonths p
  = if 0 <? totalMonthlyBurn p
    then Double.div (Double.Int (currentCash p))
           (Double.Int (totalMonthlyBurn p))
    else Double.Dyadic 999 0.
Proof.
  intros (_ & _ & _ & _ & _ & _ & H1 & H2 & H3 & _).
  unfold Double.runwayMonths. rewrite double_burn by assumption.
  reflexivity.
Qed.

Lemma double_runway_cmp (p : params) (k : Z) :
  exact_range p ->
  Double.cmp (Double.runwayMonths p) k
  = Some (if 0 <? totalMonthlyBurn p
          then currentCash p ?= k * totalMonthlyBurn p
          else 999 ?= k).
Proof.
  intros Hr. rewrite double_runway by exact Hr.
  destruct Hr as (_ & _ & _ & Hc & _ & _ & _ & _ & Hb & _).
  destruct (Z.ltb_spec 0 (totalMonthlyBurn p)).
  - apply cmp_div; [exact Hc |]. unfold within in Hb. lia.
  - cbn [Double.cmp]. change (Z.max (- 0) 0) with 0.
    change (Z.max 0 0) with 0. change (2 ^ 0) with 1.
    now rewrite !Z.mul_1_r.
Qed.

Lemma double_break_even (p : params) :
  exact_range p -> 0 < productPrice p ->
  Double.breakEvenCustomers p
  = Double.Int (Qceiling (inject_Z (totalMonthlyBurn p)
                          / inject_Z (productPrice p))).
Proof.
  intros (_ & _ & Hp & _ & _ & _ & H1 & H2 & H3 & _) Hprice.
  unfold Double.breakEvenCustomers. rewrite double_burn by assumption.
  rewrite ceil_div; [| exact H3 | unfold within in Hp; lia].
  now rewrite Qceiling_div.
Qed.

(** C1, as stated, fails: doubles round a product above 2^53.  With
    94906267 customers at a price of 94906267 the revenue the component
    computes is 9007199515875288, one less than the product. *)
Lemma huge_revenue_is_rounded :
  nonneg huge_revenue
  /\ Double.monthlyRevenue huge_revenue = Double.Int 9007199515875288
  /\ baseCustomerCount huge_revenue * productPrice huge_revenue
     = 9007199515875289
  /\ ~ (forall p : params, nonneg p ->
          Double.monthlyRevenue p
          = Double.Int (baseCustomerCount p * productPrice p)).
Proof.
  assert (Hn : nonneg huge_revenue) by (unfold nonneg; cbn; lia).
  split; [exact Hn |]. split; [vm_compute; reflexivity |].
  split; [reflexivity |].
  intros H. specialize (H huge_revenue Hn). vm_compute in H. discriminate H.
Qed.

(** C1, amended.  For every parameter vector with non-negative components
    whose burn and revenue do not exceed 2^53 the burn the component
    computes is [employees*60000 + marketingBudget + fixedMonthlyCosts] and
    the revenue is [baseCustomerCount * productPrice], exactly; on the
    example input the engine yields burn 350000, revenue 15000, cash flow
    -335000, runway 800000/350000 (the double nearest to it) and 2334
    break-even customers. *)
Theorem metrics_burn_revenue_exact (p : params) (Hp : nonneg p)
  (Hburn : totalMonthlyBurn p <= 2 ^ 53)
  (Hrev : monthlyRevenue p <= 2 ^ 53) :
  Double.totalMonthlyBurn p
    = Double.Int (employees p * 60000 + marketingBudget p
                  + fixedMonthlyCosts p)
  /\ Double.monthlyRevenue p
     = Double.Int (baseCustomerCount p * productPrice p)
  /\ Double.totalMonthlyBurn initial = Double.Int 350000
  /\ Double.monthlyRevenue initial = Double.Int 15000
  /\ Double.netCashFlow initial = Double.Int (-335000)
  /\ Double.runwayMonths initial
     = Double.div (Double.Int 800000) (Double.Int 350000)
  /\ runwayMonths initial = JS.Fin (800000 # 350000)
  /\ Double.breakEvenCustomers initial = Double.Int 2334
  /\ breakEvenCustomers initial = JS.of_Z 2334.
Proof.
  destruct Hp as (He & Hm & Hpr & Hc & Hb & Hf).
  split; [| split; [| repeat split; vm_compute; reflexivity]].
  - change (employees p * 60000 + marketingBudget p + fixedMonthlyCosts p)
      with (totalMonthlyBurn p).
    unfold totalMonthlyBurn, monthlySalaryCost, within in *.
    apply double_burn;
      unfold totalMonthlyBurn, monthlySalaryCost, within;
      change (2 ^ 53) with 9007199254740992 in *; lia.
  - change (baseCustomerCount p * productPrice p) with (monthlyRevenue p).
    apply double_revenue. unfold within, monthlyRevenue in *.
    change (2 ^ 53) with 9007199254740992 in *. nia.
Qed.

Lemma metrics_burn_revenue_exact_witness :
  nonneg initial
  /\ totalMonthlyBurn initial <= 2 ^ 53
  /\ monthlyRevenue initial <= 2 ^ 53
  /\ Double.totalMonthlyBurn initial
     = Double.Int (5 * 60000 + 30000 + 20000)
  /\ Double.monthlyRevenue initial = Double.Int (100 * 150).
Proof.
  assert (Hn : nonneg initial) by (unfold nonneg; simpl; lia).
  assert (Hb : totalMonthlyBurn initial <= 2 ^ 53)
    by (vm_compute; discriminate).
  assert (Hr : monthlyRevenue initial <= 2 ^ 53)
    by (vm_compute; discriminate).
  destruct (metrics_burn_revenue_exact initial Hn Hb Hr) as (H1 & H2 & _).
  split; [exact Hn |]. split; [exact Hb |]. split; [exact Hr |].
  split; [exact H1 | exact H2].
Defined.

(** The runway division is guarded: its result is always a finite number. *)
Lemma runway_finite (p : params) : JS.is_finite (runwayMonths p).
Proof.
  unfold runwayMonths.
  destruct (Z.ltb_spec 0 (totalMonthlyBurn p)) as [Hpos | Hle].
  - rewrite div_nonzero by lia. now eexists.
  - now eexists.
Qed.

(** Every state the sliders and the market-data refresh can reach has a
    positive price and a positive burn. *)
Lemma slider_range_guards (p : params) :
  in_slider_range p -> 0 < productPrice p /\ 0 < totalMonthlyBurn p.
Proof.
  unfold in_slider_range, totalMonthlyBurn, monthlySalaryCost. lia.
Qed.

(** On those states every integer the engine computes, the twelve running
    balances included, is far below 2^53 in absolute value, the range in
    which doubles represent integers exactly. *)
Lemma slider_range_exact (p : params) (k : Z) :
  in_slider_range p -> 1 <= k <= 12 ->
  0 < totalMonthlyBurn p < 2 ^ 53
  /\ 0 <= monthlyRevenue p < 2 ^ 53
  /\ - 2 ^ 53 < currentCash p + k * netCashFlow p < 2 ^ 53.
Proof.
  unfold in_slider_range, netCashFlow, monthlyRevenue, totalMonthlyBurn,
    monthlySalaryCost.
  intros H Hk. change (2 ^ 53) with 9007199254740992.
  assert (Hrev : 0 <= baseCustomerCount p * productPrice p <= 120 * 1000)
    by nia.
  set (rev := baseCustomerCount p * productPrice p) in *.
  set (burn := employees p * 60000 + marketingBudget p + fixedMonthlyCosts p).
  assert (Hburn : 0 < burn <= 3225000) by (unfold burn; lia).
  assert (Hnet : - (12 * 3225000) <= k * (rev - burn) <= 12 * 120000)
    by nia.
  lia.
Qed.

(** Every state the sliders and the market-data refresh can reach is in the
    exact range. *)
Lemma slider_states_exact (p : params) : in_slider_range p -> exact_range p.
Proof.
  intros H.
  pose proof (slider_range_exact p 12 H ltac:(lia)) as (Hb & Hr & Hc).
  unfold exact_range, within.
  unfold in_slider_range in H.
  unfold netCashFlow, monthlyRevenue, totalMonthlyBurn, monthlySalaryCost in *.
  change (2 ^ 53) with 9007199254740992 in *.
  repeat split; lia.
Qed.

(** C2, as stated, fails.  The break-even division has no guard: with a zero
    burn and a zero price it is [0 / 0], which is NaN, and NaN is not [>= 0];
    with a negative price it is a negative count. *)
Lemma break_even_not_always_nonneg :
  breakEvenCustomers
    {| employees := 0; marketingBudget := 0; productPrice := 0;
       currentCash := 800000; baseCustomerCount := 100;
       fixedMonthlyCosts := 0 |} = JS.NaN
  /\ JS.ge JS.NaN (JS.of_Z 0) = false
  /\ breakEvenCustomers
       {| employees := 5; marketingBudget := 30000; productPrice := -150;
          currentCash := 800000; baseCustomerCount := 100;
          fixedMonthlyCosts := 20000 |} = JS.of_Z (-2333)
  /\ JS.ge (JS.of_Z (-2333)) (JS.of_Z 0) = false
  /\ ~ (forall p : params, JS.ge (breakEvenCustomers p) (JS.of_Z 0) = true)
  /\ Double.breakEvenCustomers
       {| employees := 0; marketingBudget := 0; productPrice := 0;
          currentCash := 800000; baseCustomerCount := 100;
          fixedMonthlyCosts := 0 |} = Double.NaN
  /\ Double.breakEvenCustomers
       {| employees := 5; marketingBudget := 30000; productPrice := -150;
          currentCash := 800000; baseCustomerCount := 100;
          fixedMonthlyCosts := 20000 |} = Double.Int (-2333).
Proof.
  repeat split; try (vm_compute; reflexivity).
  intros H.
  specialize (H {| employees := 0; marketingBudget := 0; productPrice := 0;
                   currentCash := 800000; baseCustomerCount := 100;
                   fixedMonthlyCosts := 0 |}).
  discriminate H.
Qed.

(** C2, amended.  For every parameter vector in the exact range (integers
    whose derived amounts stay within 2^53, as in every state the sliders can
    reach): the runway is [currentCash / monthlyBurn] when the burn is
    positive and the sentinel 999 otherwise, so the runway division never
    divides by zero; and for a positive price and a non-negative burn the
    break-even count is the integer ceiling of [monthlyBurn / productPrice]
    (the least [c] with [monthlyBurn <= c * productPrice]) and is [>= 0].
    This holds of the doubles the component computes, and of the exact
    quotients. *)
Theorem runway_and_break_even (p : params) (Hrange : exact_range p) :
  (0 < totalMonthlyBurn p ->
     Double.runwayMonths p
     = Double.div (Double.Int (currentCash p))
         (Double.Int (totalMonthlyBurn p))
     /\ runwayMonths p
        = JS.Fin (inject_Z (currentCash p) / inject_Z (totalMonthlyBurn p)))
  /\ (totalMonthlyBurn p <= 0 ->
      Double.runwayMonths p = Double.Dyadic 999 0
      /\ runwayMonths p = JS.of_Z 999)
  /\ (exists m s, Double.runwayMonths p = Double.Dyadic m s)
  /\ JS.is_finite (runwayMonths p)
  /\ (0 < productPrice p -> 0 <= totalMonthlyBurn p ->
      exists c : Z,
        Double.breakEvenCustomers p = Double.Int c
        /\ breakEvenCustomers p = JS.of_Z c
        /\ c = Qceiling (inject_Z (totalMonthlyBurn p)
                         / inject_Z (productPrice p))
        /\ (c - 1) * productPrice p < totalMonthlyBurn p <= c * productPrice p
        /\ 0 <= c <= 2 ^ 53
        /\ JS.ge (breakEvenCustomers p) (JS.of_Z 0) = true).
Proof.
  pose proof (double_runway p Hrange) as Hrun.
  split; [| split; [| split; [| split]]].
  - intros Hpos. split.
    + rewrite Hrun. destruct (Z.ltb_spec 0 (totalMonthlyBurn p)); [| lia].
      reflexivity.
    + unfold runwayMonths.
      destruct (Z.ltb_spec 0 (totalMonthlyBurn p)); [| lia].
      apply div_nonzero. lia.
  - intros Hle. split.
    + rewrite Hrun. destruct (Z.ltb_spec 0 (totalMonthlyBurn p)); [lia |].
      reflexivity.
    + unfold runwayMonths.
      destruct (Z.ltb_spec 0 (totalMonthlyBurn p)); [lia | reflexivity].
  - rewrite Hrun. destruct (Z.ltb_spec 0 (totalMonthlyBurn p)); [| eauto].
    destruct Hrange as (_ & _ & _ & Hc & _ & _ & _ & _ & Hb & _).
    destruct (div_within (currentCash p) (totalMonthlyBurn p))
      as (m & s & Hd & _); [exact Hc | unfold within in Hb; lia |].
    eauto.
  - apply runway_finite.
  - intros Hprice Hburn.
    set (c := Qceiling (inject_Z (totalMonthlyBurn p)
                        / inject_Z (productPrice p))).
    assert (Hbe : breakEvenCustomers p = JS.of_Z c).
    { unfold breakEvenCustomers. rewrite div_nonzero by lia. reflexivity. }
    destruct (Qceiling_div_bounds (totalMonthlyBurn p) (productPrice p) Hprice)
      as [Hlo Hhi].
    fold c in Hlo, Hhi.
    assert (Hc : 0 <= c) by nia.
    assert (Hc' : c <= 2 ^ 53).
    { destruct Hrange as (_ & _ & _ & _ & _ & _ & _ & _ & Hb & _).
      unfold within in Hb. change (2 ^ 53) with 9007199254740992 in *. nia. }
    exists c. split; [now apply double_break_even |].
    repeat split; try assumption.
    rewrite Hbe. unfold JS.ge, JS.of_Z, JS.lt, JS.Qlt_bool. simpl.
    apply negb_true_iff, Z.ltb_ge. lia.
Qed.

Lemma runway_and_break_even_witness :
  exact_range initial
  /\ 0 < productPrice initial
  /\ 0 < totalMonthlyBurn initial
  /\ Double.runwayMonths initial
     = Double.div (Double.Int 800000) (Double.Int 350000)
  /\ Double.breakEvenCustomers initial = Double.Int 2334
  /\ breakEvenCustomers initial = JS.of_Z 2334
  /\ JS.ge (breakEvenCustomers initial) (JS.of_Z 0) = true.
Proof.
  assert (Hrange : exact_range initial)
    by (unfold exact_range, within; vm_compute; intuition discriminate).
  assert (Hprice : 0 < productPrice initial) by (simpl; lia).
  assert (Hburn : 0 < totalMonthlyBurn initial) by reflexivity.
  destruct (runway_and_break_even initial Hrange)
    as (Hrun & _ & _ & _ & Hbe).
  destruct (Hbe Hprice (Z.lt_le_incl _ _ Hburn))
    as (c & Hd & Hc & Hceil & _ & _ & Hge).
  split; [exact Hrange |].
  split; [exact Hprice |]. split; [exact Hburn |].
  split; [exact (proj1 (Hrun Hburn)) |].
  split; [rewrite Hd, Hceil; reflexivity |].
  split; [rewrite Hc, Hceil; reflexivity | exact Hge].
Defined.

End Metrics.

(** ** The twelve-month projection *)

Section Projections.

(** Loop invariant of [generateProjectionData]: before month [a] the running
    balance is the cash plus [a - 1] months of cash flow. *)
Lemma client_loop (p : App.params) (n a : nat) (acc : list App.point) :
  fold_left (App.projection_step p) (map Z.of_nat (seq a n))
    (App.currentCash p + (Z.of_nat a - 1) * App.netCashFlow p, acc)
  = (App.currentCash p + (Z.of_nat (a + n) - 1) * App.netCashFlow p,
     acc ++ map (client_entry p) (map Z.of_nat (seq a n))).
Proof.
  revert a acc. induction n as [| n IH]; intros a acc.
  - cbn [seq map fold_left]. rewrite Nat.add_0_r, app_nil_r. reflexivity.
  - cbn [seq map fold_left]. unfold App.projection_step at 2.
    cbn [fst snd].
    replace (App.currentCash p + (Z.of_nat a - 1) * App.netCashFlow p
             + App.netCashFlow p)
      with (App.currentCash p + (Z.of_nat (S a) - 1) * App.netCashFlow p)
      by lia.
    rewrite IH. f_equal.
    + f_equal. lia.
    + rewrite <- app_assoc. cbn [app]. unfold client_entry at 2.
      repeat f_equal. lia.
Qed.

Lemma server_loop (m : Server.metrics) (n a : nat)
  (acc : list Server.projection) :
  let net := Server.monthlyRevenue m - Server.totalMonthlyBurn m in
  fold_left (Server.projections_step m) (map Z.of_nat (seq a n))
    (Server.currentCash m + (Z.of_nat a - 1) * net, acc)
  = (Server.currentCash m + (Z.of_nat (a + n) - 1) * net,
     acc ++ map (server_entry m) (map Z.of_nat (seq a n))).
Proof.
  intros net. revert a acc. induction n as [| n IH]; intros a acc.
  - cbn [seq map fold_left]. rewrite Nat.add_0_r, app_nil_r. reflexivity.
  - cbn [seq map fold_left]. unfold Server.projections_step at 2.
    cbn [fst snd]. fold net.
    replace (Server.currentCash m + (Z.of_nat a - 1) * net + net)
      with (Server.currentCash m + (Z.of_nat (S a) - 1) * net) by lia.
    rewrite IH. f_equal.
    + f_equal. lia.
    + rewrite <- app_assoc. cbn [app]. unfold server_entry at 2. fold net.
      repeat f_equal. lia.
Qed.

Lemma client_projection_closed (p : App.params) :
  App.generateProjectionData p = map (client_entry p) one_to_twelve.
Proof.
  unfold App.generateProjectionData.
  change App.months with (map Z.of_nat (seq 1 12)).
  pose proof (client_loop p 12 1 []) as H.
  replace (App.currentCash p + (Z.of_nat 1 - 1) * App.netCashFlow p)
    with (App.currentCash p) in H by lia.
  rewrite H. reflexivity.
Qed.

Lemma server_projection_closed (m : Server.metrics) :
  Server.projections_of m = map (server_entry m) one_to_twelve.
Proof.
  unfold Server.projections_of.
  change Server.months with (map Z.of_nat (seq 1 12)).
  pose proof (server_loop m 12 1 []) as H. cbv zeta in H.
  replace (Server.currentCash m + (Z.of_nat 1 - 1)
           * (Server.monthlyRevenue m - Server.totalMonthlyBurn m))
    with (Server.currentCash m) in H by lia.
  rewrite H. reflexivity.
Qed.

Lemma server_projections_run (m : Server.metrics) (o : Server.payload)
  (w : Server.world) :
  Server.generateProjections
    {| Server.metrics_field := Some m; Server.other_fields := o |} w
  = (Server.Return (map (server_entry m) one_to_twelve), w).
Proof.
  unfold Server.generateProjections, Server.bind, Server.destructure_metrics,
    Server.ret. cbn [Server.metrics_field].
  rewrite server_projection_closed. reflexivity.
Qed.

(** Between the cash and the balance of month 12 lie the balances of all
    the months. *)
Lemma within_between (c net i : Z) :
  within c -> within (c + 12 * net) -> 0 <= i <= 12 -> within (c + i * net).
Proof.
  unfold within. change (2 ^ 53) with 9007199254740992.
  intros Hc H12 Hi. destruct (Z.le_ge_cases 0 net); split; nia.
Qed.

(** One iteration in doubles is the iteration of the exact model as long as
    the new balance is within 2^53. *)
Lemma double_client_step (p : App.params) (c : Z) (l : list App.point)
  (m : Z) :
  exact_range p -> within (c + App.netCashFlow p) ->
  Double.projection_step p (Double.Int c, map double_point l) m
  = (Double.Int (fst (App.projection_step p (c, l) m)),
     map double_point (snd (App.projection_step p (c, l) m))).
Proof.
  intros Hr Hc.
  pose proof (double_net p Hr) as Hnet.
  destruct Hr as (_ & _ & _ & _ & _ & _ & H1 & H2 & H3 & H4 & _).
  unfold Double.projection_step, App.projection_step. cbn [fst snd].
  rewrite Hnet, double_burn, double_revenue by assumption.
  cbn [Double.add]. rewrite round_within by exact Hc.
  rewrite map_app. reflexivity.
Qed.

Lemma double_client_fold (p : App.params) (ms : list Z) :
  exact_range p ->
  forall (c : Z) (l : list App.point),
    (forall i, 1 <= i <= Z.of_nat (length ms) ->
               within (c + i * App.netCashFlow p)) ->
    fold_left (Double.projection_step p) ms
      (Double.Int c, map double_point l)
    = (Double.Int (fst (fold_left (App.projection_step p) ms (c, l))),
       map double_point (snd (fold_left (App.projection_step p) ms (c, l)))).
Proof.
  intros Hr. induction ms as [| m ms IH]; intros c l Hw.
  - reflexivity.
  - cbn [fold_left].
    rewrite double_client_step; [| exact Hr |].
    + destruct (App.projection_step p (c, l) m) as [c' l'] eqn:Hstep.
      assert (Hc' : c' = c + App.netCashFlow p).
      { unfold App.projection_step in Hstep. cbn [fst] in Hstep.
        now inversion Hstep. }
      cbn [fst snd]. apply IH. intros i Hi. subst c'.
      replace (c + App.netCashFlow p + i * App.netCashFlow p)
        with (c + (i + 1) * App.netCashFlow p) by lia.
      apply Hw. cbn [length]. lia.
    + replace (c + App.netCashFlow p) with (c + 1 * App.netCashFlow p) by lia.
      apply Hw. cbn [length]. lia.
Qed.

Lemma double_client_projection (p : App.params) :
  exact_range p ->
  Double.generateProjectionData p
  = map double_point (map (client_entry p) one_to_twelve).
Proof.
  intros Hr. unfold Double.generateProjectionData.
  change (@nil Double.point) with (map double_point []).
  rewrite double_client_fold; [| exact Hr |].
  - cbn [snd]. fold (App.generateProjectionData p).
    now rewrite client_projection_closed.
  - intros i Hi. change (Z.of_nat (length App.months)) with 12 in Hi.
    destruct Hr as (_ & _ & _ & Hc & _ & _ & _ & _ & _ & _ & _ & H12).
    apply within_between; [assumption | assumption | lia].
Qed.

Lemma double_server_step (m : Server.metrics) (c : Z)
  (l : list Server.projection) (mo : Z) :
  exact_metrics m ->
  within (c + (Server.monthlyRevenue m - Server.totalMonthlyBurn m)) ->
  Double.projections_step m (Double.Int c, map double_projection l) mo
  = (Double.Int (fst (Server.projections_step m (c, l) mo)),
     map double_projection (snd (Server.projections_step m (c, l) mo))).
Proof.
  intros (_ & _ & _ & Hnet & _) Hc.
  unfold Double.projections_step, Server.projections_step. cbn [fst snd].
  cbn [Double.sub Double.neg Double.add]. rewrite Z.add_opp_r.
  rewrite round_within by exact Hnet.
  cbn [Double.add]. rewrite round_within by exact Hc.
  rewrite map_app. reflexivity.
Qed.

Lemma double_server_fold (m : Server.metrics) (ms : list Z) :
  exact_metrics m ->
  forall (c : Z) (l : list Server.projection),
    (forall i, 1 <= i <= Z.of_nat (length ms) ->
               within (c + i * (Server.monthlyRevenue m
                                - Server.totalMonthlyBurn m))) ->
    fold_left (Double.projections_step m) ms
      (Double.Int c, map double_projection l)
    = (Double.Int (fst (fold_left (Server.projections_step m) ms (c, l))),
       map double_projection
         (snd (fold_left (Server.projections_step m) ms (c, l)))).
Proof.
  intros Hr. induction ms as [| mo ms IH]; intros c l Hw.
  - reflexivity.
  - cbn [fold_left].
    set (net := Server.monthlyRevenue m - Server.totalMonthlyBurn m) in *.
    rewrite double_server_step; [| exact Hr |].
    + destruct (Server.projections_step m (c, l) mo) as [c' l'] eqn:Hstep.
      assert (Hc' : c' = c + net).
      { unfold Server.projections_step in Hstep. cbn [fst] in Hstep.
        now inversion Hstep. }
      cbn [fst snd]. apply IH. intros i Hi. subst c'.
      replace (c + net + i * net) with (c + (i + 1) * net) by lia.
      apply Hw. cbn [length]. lia.
    + fold net. replace (c + net) with (c + 1 * net) by lia.
      apply Hw. cbn [length]. lia.
Qed.

Lemma double_server_projection (m : Server.metrics) :
  exact_metrics m ->
  Double.generateProjections m
  = map double_projection (map (server_entry m) one_to_twelve).
Proof.
  intros Hr. unfold Double.generateProjections.
  change (@nil Double.projection) with (map double_projection []).
  rewrite double_server_fold; [| exact Hr |].
  - cbn [snd]. fold (Server.projections_of m).
    now rewrite server_projection_closed.
  - intros i Hi. change (Z.of_nat (length Server.months)) with 12 in Hi.
    destruct Hr as (_ & _ & Hc & _ & H12).
    apply within_between; [assumption | assumption | lia].
Qed.

(** C3, as stated, fails: the loops add the cash flow to the running balance
    month by month, in doubles.  From a cash of 2^53 with a cash flow of 1 a
    month every sum is rounded back to 2^53, so all twelve balances are 2^53
    where the closed form gives 2^53 + m; the server's loop does the same on
    the same cash, revenue and burn. *)
Lemma huge_cash_stays_put :
  map Double.cash (Double.generateProjectionData huge_cash)
  = repeat (Double.Int 9007199254740992) 12
  /\ map Double.cashBalance
       (Double.generateProjections
          {| Server.totalMonthlyBurn := 0; Server.monthlyRevenue := 1;
             Server.runwayMonths := JS.of_Z 999; Server.employees := 0;
             Server.productPrice := 1;
             Server.currentCash := 9007199254740992 |})
     = repeat (Double.Int 9007199254740992) 12
  /\ map App.cash (map (client_entry huge_cash) one_to_twelve)
     = map (fun k => 9007199254740992 + k) one_to_twelve
  /\ ~ (forall p : App.params,
          Double.generateProjectionData p
          = map double_point (map (client_entry p) one_to_twelve)).
Proof.
  split; [vm_compute; reflexivity |].
  split; [vm_compute; reflexivity |].
  split; [vm_compute; reflexivity |].
  intros H. specialize (H huge_cash).
  apply (f_equal (map Double.cash)) in H. vm_compute in H. discriminate H.
Qed.

(** C3, amended.  For integer parameters in the exact range, and for integer
    metrics in the exact range on the server, the client's
    [generateProjectionData] and the server's [generateProjections] both
    produce exactly twelve entries, for the months 1..12 in increasing order;
    the entry of month [k] has the cash balance
    [max(0, currentCash + k * netCashFlow)], the revenue [monthlyRevenue] and
    the expenses [monthlyBurn], the same in every month. *)
Theorem twelve_month_projection
  (p : App.params) (m : Server.metrics) (o : Server.payload)
  (w : Server.world) (Hp : exact_range p) (Hm : exact_metrics m) :
  Double.generateProjectionData p
  = map double_point (map (client_entry p) one_to_twelve)
  /\ length (Double.generateProjectionData p) = 12%nat
  /\ Double.generateProjections m
     = map double_projection (map (server_entry m) one_to_twelve)
  /\ length (Double.generateProjections m) = 12%nat
  /\ App.generateProjectionData p = map (client_entry p) one_to_twelve
  /\ Server.generateProjections
       {| Server.metrics_field := Some m; Server.other_fields := o |} w
     = (Server.Return (map (server_entry m) one_to_twelve), w).
Proof.
  split; [now apply double_client_projection |].
  split; [rewrite double_client_projection by exact Hp; reflexivity |].
  split; [now apply double_server_projection |].
  split; [rewrite double_server_projection by exact Hm; reflexivity |].
  split; [apply client_projection_closed | apply server_projections_run].
Qed.

Lemma twelve_month_projection_witness :
  exact_range App.initial
  /\ exact_metrics (Server.Metrics 350000 15000
                      (JS.Fin (800000 # 350000)) 5 150 800000)
  /\ map Double.cash (Double.generateProjectionData App.initial)
     = [Double.Int 465000; Double.Int 130000; Double.Int 0; Double.Int 0;
        Double.Int 0; Double.Int 0; Double.Int 0; Double.Int 0;
        Double.Int 0; Double.Int 0; Double.Int 0; Double.Int 0]
  /\ length (Double.generateProjections
               (Server.Metrics 350000 15000
                  (JS.Fin (800000 # 350000)) 5 150 800000)) = 12%nat.
Proof.
  assert (Hp : exact_range App.initial)
    by (unfold exact_range, within; vm_compute; intuition discriminate).
  assert (Hm : exact_metrics (Server.Metrics 350000 15000
                                (JS.Fin (800000 # 350000)) 5 150 800000))
    by (unfold exact_metrics, within; vm_compute; intuition discriminate).
  destruct (twelve_month_projection App.initial _ [] Server.idle Hp Hm)
    as (H1 & _ & _ & H4 & _).
  split; [exact Hp |]. split; [exact Hm |].
  split; [rewrite H1; reflexivity | exact H4].
Defined.

End Projections.

(** ** Client-side and server-side report content *)

Section ClientServer.

(** C5, as stated, fails: on the example scenario the client recommends one
    entry (critical cash situation) where the server reports three insights
    (cash-flow warning, critical runway, pricing opportunity), with different
    messages. *)
Lemma insight_generators_differ :
  exists ins,
    Server.generateAIInsights (report_input App.initial []) Server.idle
      = (Server.Return ins, Server.idle)
    /\ map Server.type ins = ["warning"; "critical"; "opportunity"]
    /\ map App.type (App.getAIRecommendations App.initial) = ["critical"]
    /\ map Server.message ins
       <> map App.message (App.getAIRecommendations App.initial).
Proof.
  eexists. split; [reflexivity |].
  split; [reflexivity |]. split; [reflexivity |].
  discriminate.
Qed.

(** C5, amended.  Given the client's parameters and derived metrics, the
    server's projection has the same twelve entries as the client's chart
    data: same month, cash balance, revenue, expenses and net flow. *)
Theorem projection_generators_agree
  (p : App.params) (o : Server.payload) (w : Server.world) :
  exists projs,
    Server.generateProjections (report_input p o) w = (Server.Return projs, w)
    /\ Forall2 same_entry (App.generateProjectionData p) projs.
Proof.
  eexists. split.
  - unfold report_input. apply server_projections_run.
  - rewrite client_projection_closed. unfold one_to_twelve.
    cbn [map]. repeat (constructor; [repeat split |]). constructor.
Qed.

End ClientServer.

(** ** Recent scenarios *)

Section RecentScenarios.

Import Server.

Lemma insert_by_length {A} (cmp : A -> A -> Z) (x : A) (l : list A) :
  length (insert_by cmp x l) = S (length l).
Proof.
  induction l as [| y l IH]; cbn [insert_by]; [reflexivity |].
  destruct (cmp x y <=? 0); cbn [length]; congruence.
Qed.

Lemma sort_length {A} (cmp : A -> A -> Z) (l : list A) :
  length (sort cmp l) = length l.
Proof.
  induction l as [| x l IH]; cbn [sort]; [reflexivity |].
  rewrite insert_by_length. cbn [length]. congruence.
Qed.

Lemma insert_by_perm {A} (cmp : A -> A -> Z) (x : A) (l : list A) :
  Permutation (x :: l) (insert_by cmp x l).
Proof.
  induction l as [| y l IH]; cbn [insert_by]; [reflexivity |].
  destruct (cmp x y <=? 0); [reflexivity |].
  rewrite perm_swap. now apply perm_skip.
Qed.

Lemma sort_perm {A} (cmp : A -> A -> Z) (l : list A) :
  Permutation l (sort cmp l).
Proof.
  induction l as [| x l IH]; cbn [sort]; [reflexivity |].
  rewrite <- insert_by_perm. now apply perm_skip.
Qed.

Lemma insert_newest_first (x : scenario) (l : list scenario) :
  newest_first l -> newest_first (insert_by by_timestamp_desc x l).
Proof.
  unfold newest_first. induction 1 as [| y l Hl IH Hy]; cbn [insert_by].
  - repeat constructor.
  - unfold by_timestamp_desc at 1.
    destruct (Z.leb_spec (Z.of_N (timestamp y) - Z.of_N (timestamp x)) 0)
      as [Hle | Hgt].
    + constructor; [now constructor |].
      constructor; [lia |].
      eapply Forall_impl; [exact Hy |]. cbn. intros z Hz. lia.
    + constructor; [exact IH |].
      eapply Permutation_Forall; [apply insert_by_perm |].
      constructor; [lia | exact Hy].
Qed.

Lemma sort_newest_first (l : list scenario) :
  newest_first (sort by_timestamp_desc l).
Proof.
  induction l as [| x l IH]; cbn [sort]; [constructor |].
  now apply insert_newest_first.
Qed.

Lemma firstn_newest_first (n : nat) (l : list scenario) :
  newest_first l -> newest_first (firstn n l).
Proof.
  unfold newest_first. intros H. revert n.
  induction H as [| y l Hl IH Hy]; intros [| n]; cbn [firstn];
    try constructor.
  - apply IH.
  - apply Forall_take. exact Hy.
Qed.

(** Whatever order the store hands the values over in, sorting and
    truncating gives at most ten scenarios, newest first. *)
Lemma recent_ten (vs : list value) :
  let l := slice0 10 (sort by_timestamp_desc (as_scenarios vs)) in
  (length l <= 10)%nat /\ newest_first l.
Proof.
  cbv zeta. unfold slice0. split.
  - rewrite length_take. lia.
  - apply firstn_newest_first, sort_newest_first.
Qed.

(** C6. For every store, GET /scenarios answers with at most ten scenarios
    whose timestamps are non-increasing (newest first): on success, the
    first ten of the stored scenarios arranged newest first. *)
Theorem get_scenarios_recent_first (w : world) :
  exists (l : list scenario) (code : Z) (w' : world),
    get_scenarios w
      = (Return {| json_body := BScenarios l; status := code |}, w')
    /\ (length l <= 10)%nat
    /\ StronglySorted (fun a b => (b <= a)%N) (map timestamp l)
    /\ ((code = 500 /\ l = [])
        \/ (code = 200
            /\ exists every,
                 Permutation (as_scenarios (stored_under "scenario-" (kv w)))
                   every
                 /\ newest_first every
                 /\ l = firstn 10 every)).
Proof.
  assert (Hmap : forall l, newest_first l ->
            StronglySorted (fun a b => (b <= a)%N) (map timestamp l)).
  { unfold newest_first. induction 1 as [| y l Hl IH Hy]; cbn [map].
    - constructor.
    - constructor; [exact IH |]. apply Forall_map. exact Hy. }
  destruct w as [m c t fs lg].
  unfold get_scenarios, try_catch, bind, kv_getByPrefix, store_op,
    console_log, ret, json, json_status.
  cbn [faults kv].
  destruct fs as [| [] fs]; cbn [faults kv];
    do 3 eexists; (split; [reflexivity |]).
  2: { split; [cbn; lia |]. split; [constructor | now left]. }
  all: split; [apply recent_ten |];
    split; [apply Hmap, recent_ten |];
    right; split; [reflexivity |];
    eexists; split; [apply sort_perm |];
    split; [apply sort_newest_first | reflexivity].
Qed.

End RecentScenarios.

(** ** Usage counters *)

Section Routes.

Import Server.

Lemma usage_key_not_scenario (s : string) : usage_key <> "scenario-" +:+ s.
Proof. discriminate. Qed.

Lemma usage_key_not_report (s : string) : usage_key <> "report-" +:+ s.
Proof. discriminate. Qed.

Ltac unfold_handlers :=
  unfold handle, get_health, get_usage, post_usage, post_scenario,
    get_scenarios, post_generate_report, generateAIInsights,
    generateProjections, destructure_metrics, try_catch, bind, kv_get,
    kv_set, kv_getByPrefix, store_op, console_log, ret, throw, req_json,
    Date_now, json, json_status in *.

Ltac step :=
  cbn [faults kv clock ticks console set_kv set_faults metrics_field] in *.

Ltac usage_lookup :=
  rewrite ?lookup_insert_eq,
    ?(lookup_insert_ne _ _ _ _ (not_eq_sym (usage_key_not_scenario _))),
    ?(lookup_insert_ne _ _ _ _ (not_eq_sym (usage_key_not_report _))).

(** What POST /scenario does to the counters: on success the scenarios
    counter is bumped, on an error response the record is as before. *)
Lemma post_scenario_counters b w r w' :
  post_scenario b w = (Return r, w') ->
  (status r = 200 /\ stored_usage w' = bump_scenarios (stored_usage w))
  \/ (status r = 500 /\ stored_usage w' = stored_usage w).
Proof.
  destruct w as [m c t fs lg]. intros H.
  unfold stored_usage, bump_scenarios. unfold_handlers.
  destruct b as [o |]; step.
  2: { inversion H; subst; clear H. step. now right. }
  destruct fs as [| [] [| [] [| [] fs]]]; step;
    inversion H; subst; clear H; step; usage_lookup;
    first [ now right | now left ].
Qed.

Lemma post_generate_report_counters b w r w' :
  post_generate_report b w = (Return r, w') ->
  (status r = 200 /\ stored_usage w' = bump_reports (stored_usage w))
  \/ (status r = 500 /\ stored_usage w' = stored_usage w).
Proof.
  destruct w as [m c t fs lg]. intros H.
  unfold stored_usage, bump_reports. unfold_handlers.
  destruct b as [[[mt |] o] |]; step.
  2, 3: inversion H; subst; clear H; step; now right.
  destruct fs as [| [] [| [] [| [] fs]]]; step;
    inversion H; subst; clear H; step; usage_lookup;
    first [ now right | now left ].
Qed.

(** The reading handlers, and every handler that answers an unparsable
    body, leave the table alone. *)
Lemma get_usage_store w r w' :
  get_usage w = (Return r, w') -> kv w' = kv w.
Proof.
  destruct w as [m c t fs lg]. intros H. unfold_handlers. step.
  destruct fs as [| [] fs]; step; inversion H; subst; reflexivity.
Qed.

Lemma get_scenarios_store w r w' :
  get_scenarios w = (Return r, w') -> kv w' = kv w.
Proof.
  destruct w as [m c t fs lg]. intros H. unfold_handlers. step.
  destruct fs as [| [] fs]; step; inversion H; subst; reflexivity.
Qed.

(** What POST /usage does: on success the record is replaced by the
    request's counters and the reading of the clock; on an error response
    the table is as before. *)
Lemma post_usage_effect b w r w' :
  post_usage b w = (Return r, w') ->
  (exists u, b = Some u /\ status r = 200
     /\ json_body r = BUsageSaved true (new_scenarios u) (new_reports u)
     /\ kv w' = <[usage_key :=
                   VUsage {| scenarios := new_scenarios u;
                             reports := new_reports u;
                             lastUpdated := Some (clock w') |}]> (kv w))
  \/ (status r = 500
      /\ json_body r = BError "Failed to save usage data"
      /\ kv w' = kv w).
Proof.
  destruct w as [m c t fs lg]. intros H. unfold_handlers.
  destruct b as [u |]; step.
  2: { inversion H; subst; clear H. right. now repeat split. }
  destruct fs as [| [] fs]; step; inversion H; subst; clear H; step.
  - left. exists u. now repeat split.
  - right. now repeat split.
  - left. exists u. now repeat split.
Qed.

(** Every other route: the counters after the request, by route. *)
Lemma handle_counters req w r w' :
  handle req w = (Return r, w') ->
  match req with
  | POST_usage _ => True
  | _ =>
      scenarios (stored_usage w) <= scenarios (stored_usage w')
      /\ reports (stored_usage w) <= reports (stored_usage w')
  end.
Proof.
  intros H. destruct req as [| | b | b | | b]; cbn [handle] in H.
  - unfold get_health, ret in H. inversion H; subst. lia.
  - unfold stored_usage. rewrite (get_usage_store _ _ _ H). lia.
  - exact I.
  - destruct (post_scenario_counters _ _ _ _ H) as [[_ ->] | [_ ->]];
      cbn; lia.
  - unfold stored_usage. rewrite (get_scenarios_store _ _ _ H). lia.
  - destruct (post_generate_report_counters _ _ _ _ H) as [[_ ->] | [_ ->]];
      cbn; lia.
Qed.

(** C4, as stated, fails: POST /usage stores the counters of its request,
    whatever is stored; posting zeros over 5 scenarios and 2 reports leaves
    zeros. *)
Lemma post_usage_can_decrease :
  exists r w',
    handle (POST_usage (Some {| new_scenarios := 0; new_reports := 0 |}))
      counted_5_2 = (Return r, w')
    /\ status r = 200
    /\ scenarios (stored_usage counted_5_2) = 5
    /\ reports (stored_usage counted_5_2) = 2
    /\ scenarios (stored_usage w') = 0
    /\ reports (stored_usage w') = 0.
Proof.
  do 2 eexists. split; [reflexivity |]. now vm_compute.
Qed.

(** C4, amended.  Every route other than POST /usage leaves both counters
    at least as large as they were.  A successful POST /scenario adds one to
    the scenarios counter and leaves the reports counter, and a successful
    POST /generate-report adds one to the reports counter and leaves the
    scenarios counter, when the counter is an integer from -2^53 to below
    2^53 (where the [+ 1] of doubles is exact). *)
Theorem counters_never_decrease_except_post_usage
  (req : request) (w : world) (r : response) (w' : world)
  (Hroute : forall b, req <> POST_usage b)
  (Hrun : handle req w = (Return r, w')) :
  scenarios (stored_usage w) <= scenarios (stored_usage w')
  /\ reports (stored_usage w) <= reports (stored_usage w')
  /\ (forall b, req = POST_scenario b -> status r = 200 ->
      counter_range (scenarios (stored_usage w)) ->
      stored_usage w' = bump_scenarios (stored_usage w)
      /\ Double.Int (scenarios (stored_usage w'))
         = Double.add (Double.Int (scenarios (stored_usage w)))
             (Double.Int 1))
  /\ (forall b, req = POST_generate_report b -> status r = 200 ->
      counter_range (reports (stored_usage w)) ->
      stored_usage w' = bump_reports (stored_usage w)
      /\ Double.Int (reports (stored_usage w'))
         = Double.add (Double.Int (reports (stored_usage w)))
             (Double.Int 1)).
Proof.
  pose proof (handle_counters _ _ _ _ Hrun) as H.
  split; [| split; [| split]].
  - destruct req; try apply H. now destruct (Hroute b).
  - destruct req; try apply H. now destruct (Hroute b).
  - intros b -> Hok Hc. cbn [handle] in Hrun.
    destruct (post_scenario_counters _ _ _ _ Hrun) as [[_ Hb] | [Hs _]];
      [| congruence].
    split; [exact Hb |]. rewrite Hb, double_succ by exact Hc. reflexivity.
  - intros b -> Hok Hc. cbn [handle] in Hrun.
    destruct (post_generate_report_counters _ _ _ _ Hrun)
      as [[_ Hb] | [Hs _]]; [| congruence].
    split; [exact Hb |]. rewrite Hb, double_succ by exact Hc. reflexivity.
Qed.

Lemma counters_never_decrease_except_post_usage_witness :
  exists r w',
    handle (POST_scenario (Some [])) counted_5_2 = (Return r, w')
    /\ scenarios (stored_usage counted_5_2) <= scenarios (stored_usage w')
    /\ reports (stored_usage counted_5_2) <= reports (stored_usage w')
    /\ stored_usage w' = bump_scenarios (stored_usage counted_5_2).
Proof.
  do 2 eexists. split; [reflexivity |].
  edestruct (counters_never_decrease_except_post_usage
               (POST_scenario (Some [])) counted_5_2)
    as (H1 & H2 & H3 & _).
  - intros b. discriminate.
  - reflexivity.
  - split; [exact H1 |]. split; [exact H2 |].
    refine (proj1 (H3 _ eq_refl _ _)).
    + vm_compute. reflexivity.
    + vm_compute. split; [discriminate | reflexivity].
Defined.

(** C7, as stated, fails: the response of POST /usage is
    [{ success, scenarios, reports }].  Two requests that differ only in the
    instant they are served at get the same response, so the server
    timestamp, which is stored as [lastUpdated], cannot be read off it. *)
Lemma post_usage_response_has_no_timestamp :
  let b := Some {| new_scenarios := 3; new_reports := 4 |} in
  let at_time (t : N) : world :=
    {| kv := ∅; clock := t; ticks := []; faults := []; console := [] |} in
  fst (post_usage b (at_time 1000%N))
    = Return {| json_body := BUsageSaved true 3 4; status := 200 |}
  /\ fst (post_usage b (at_time 2000%N))
     = Return {| json_body := BUsageSaved true 3 4; status := 200 |}
  /\ lastUpdated (stored_usage (snd (post_usage b (at_time 1000%N))))
     = Some 1000%N
  /\ lastUpdated (stored_usage (snd (post_usage b (at_time 2000%N))))
     = Some 2000%N
  /\ ~ (exists stamp_of : response -> N,
          forall u w r w',
            post_usage (Some u) w = (Return r, w') -> status r = 200 ->
            lastUpdated (stored_usage w') = Some (stamp_of r)).
Proof.
  cbv zeta. repeat split.
  intros [stamp_of H].
  epose proof (H {| new_scenarios := 3; new_reports := 4 |}
                 {| kv := ∅; clock := 1000; ticks := []; faults := [];
                    console := [] |} _ _ eq_refl eq_refl) as H1.
  epose proof (H {| new_scenarios := 3; new_reports := 4 |}
                 {| kv := ∅; clock := 2000; ticks := []; faults := [];
                    console := [] |} _ _ eq_refl eq_refl) as H2.
  vm_compute in H1, H2. congruence.
Qed.

(** C7, amended.  A successful POST /usage answers 200 with
    [{ success: true, scenarios, reports }], the counters of the request;
    the server timestamp is stored with them as [lastUpdated] and is not
    part of the response. *)
Theorem post_usage_echoes_input
  (u : usage_update) (w : world) (r : response) (w' : world)
  (Hrun : post_usage (Some u) w = (Return r, w'))
  (Hok : status r = 200) :
  json_body r = BUsageSaved true (new_scenarios u) (new_reports u)
  /\ kv w' !! usage_key
     = Some (VUsage {| scenarios := new_scenarios u;
                       reports := new_reports u;
                       lastUpdated := Some (clock w') |})
  /\ clock w' = (clock w + hd 0 (ticks w))%N.
Proof.
  destruct (post_usage_effect _ _ _ _ Hrun)
    as [(u' & Hu & _ & Hbody & Hkv) | (H500 & _)]; [| lia].
  injection Hu as <-. split; [exact Hbody |].
  split; [rewrite Hkv; apply lookup_insert_eq |].
  destruct w as [m c t fs lg]. unfold_handlers. step.
  destruct fs as [| [] fs]; step; inversion Hrun; subst; reflexivity.
Qed.

Lemma post_usage_echoes_input_witness :
  exists r w',
    post_usage (Some {| new_scenarios := 3; new_reports := 4 |}) counted_5_2
      = (Return r, w')
    /\ json_body r = BUsageSaved true 3 4
    /\ kv w' !! usage_key
       = Some (VUsage {| scenarios := 3; reports := 4;
                         lastUpdated := Some 2000%N |}).
Proof.
  do 2 eexists. split; [reflexivity |].
  destruct (post_usage_echoes_input
              {| new_scenarios := 3; new_reports := 4 |} counted_5_2 _ _
              eq_refl eq_refl) as (Hb & Hs & _).
  split; [exact Hb | exact Hs].
Defined.


(** ** Report identifiers and content *)

(** A successful POST /generate-report, in closed form. *)
Lemma post_generate_report_ok d w i rep w' :
  post_generate_report (Some d) w
    = (Return {| json_body := BReport true i rep; status := 200 |}, w') ->
  exists m,
    metrics_field d = Some m
    /\ i = "report-" +:+ pretty (Date_reading w)
    /\ rep = {| report_metrics := Some m;
                report_fields :=
                  spread_except
                    ["id"; "timestamp"; "aiInsights"; "projections"]
                    (other_fields d);
                id := i;
                report_timestamp := (Date_reading w + hd 0 (tl (ticks w)))%N;
                aiInsights := insights_of m;
                projections := projections_of m |}.
Proof.
  destruct w as [mp c t fs lg]. intros H. unfold Date_reading.
  unfold_handlers. destruct d as [[m |] o]; step.
  2: discriminate.
  exists m.
  destruct fs as [| [] [| [] [| [] fs]]]; step; inversion H; subst; clear H;
    now repeat split.
Qed.

Lemma report_id_inj (a b : N) :
  "report-" +:+ pretty a = "report-" +:+ pretty b <-> a = b.
Proof.
  split; [| now intros ->].
  intros H. apply (inj (String.app _)) in H. now apply (inj pretty) in H.
Qed.

(** C8, as stated, fails: two report generations served within the same
    millisecond get the same id (and the second report replaces the first
    in the store, while the counter says two). *)
Lemma same_millisecond_same_report_id :
  let run1 := post_generate_report (Some example_report) same_millisecond in
  let run2 := post_generate_report (Some example_report) (snd run1) in
  (exists rep1 rep2,
     fst run1
       = Return {| json_body := BReport true "report-1700000000000" rep1;
                   status := 200 |}
     /\ fst run2
        = Return {| json_body := BReport true "report-1700000000000" rep2;
                    status := 200 |}
     /\ id rep1 = id rep2)
  /\ reports (stored_usage (snd run2)) = 2
  /\ size (kv (snd run2)) = 2%nat.
Proof.
  vm_compute. split; [| split; reflexivity].
  do 2 eexists. split; [reflexivity |]. split; reflexivity.
Qed.

(** C8, amended.  Two successful report generations on the same request
    have the same insights and projections, and the same report apart from
    the id when their timestamps agree; the id is ["report-"] followed by
    the millisecond reading of the clock, so the two ids differ exactly when
    the two readings differ. *)
Theorem report_content_deterministic_id_by_clock
  (d : reportData) (w1 w2 w1' w2' : world) (i1 i2 : string)
  (rep1 rep2 : report)
  (H1 : post_generate_report (Some d) w1
        = (Return {| json_body := BReport true i1 rep1; status := 200 |}, w1'))
  (H2 : post_generate_report (Some d) w2
        = (Return {| json_body := BReport true i2 rep2; status := 200 |}, w2')) :
  aiInsights rep1 = aiInsights rep2
  /\ projections rep1 = projections rep2
  /\ (report_timestamp rep1 = report_timestamp rep2 ->
      with_id i2 rep1 = rep2)
  /\ id rep1 = i1 /\ id rep2 = i2
  /\ i1 = "report-" +:+ pretty (Date_reading w1)
  /\ (i1 = i2 <-> Date_reading w1 = Date_reading w2).
Proof.
  destruct (post_generate_report_ok _ _ _ _ _ H1) as (m1 & Hm1 & Hi1 & Hr1).
  destruct (post_generate_report_ok _ _ _ _ _ H2) as (m2 & Hm2 & Hi2 & Hr2).
  assert (m2 = m1) as -> by congruence.
  repeat split.
  - now rewrite Hr1, Hr2.
  - now rewrite Hr1, Hr2.
  - rewrite Hr1, Hr2. unfold with_id. cbn. intros ->. reflexivity.
  - now rewrite Hr1.
  - now rewrite Hr2.
  - exact Hi1.
  - rewrite Hi1, Hi2. apply report_id_inj.
  - rewrite Hi1, Hi2. apply report_id_inj.
Qed.

Lemma report_content_deterministic_id_by_clock_witness :
  exists rep1 rep2 w1 w2,
    post_generate_report (Some example_report) same_millisecond
      = (Return {| json_body := BReport true "report-1700000000000" rep1;
                   status := 200 |}, w1)
    /\ post_generate_report (Some example_report) next_millisecond
       = (Return {| json_body := BReport true "report-1700000000001" rep2;
                    status := 200 |}, w2)
    /\ aiInsights rep1 = aiInsights rep2
    /\ projections rep1 = projections rep2.
Proof.
  do 4 eexists. split; [reflexivity |]. split; [reflexivity |].
  destruct (report_content_deterministic_id_by_clock
              example_report same_millisecond next_millisecond _ _ _ _ _ _
              eq_refl eq_refl) as (Ha & Hp & _).
  split; [exact Ha | exact Hp].
Defined.

(** ** Store failures *)






(** ** The shape of the table

    The typed reading of the table ([or_default], [as_scenarios]) loses
    nothing: the usage key only ever holds a usage record and the keys under
    ["scenario-"] only ever hold scenarios. *)

Lemma well_shaped_empty : well_shaped ∅.
Proof. split; intros *; rewrite ?lookup_empty; discriminate. Qed.

Lemma well_shaped_usage m u :
  well_shaped m -> well_shaped (<[usage_key := VUsage u]> m).
Proof.
  intros [Hu Hs]. split.
  - intros v. rewrite lookup_insert_eq. intros [= <-]. now eexists.
  - intros k v Hk. destruct (decide (usage_key = k)) as [<- | Hne].
    + discriminate Hk.
    + rewrite lookup_insert_ne by exact Hne. now apply Hs.
Qed.

Lemma well_shaped_scenario m x s :
  well_shaped m -> well_shaped (<["scenario-" +:+ x := VScenario s]> m).
Proof.
  intros [Hu Hs]. split.
  - intros v.
    rewrite (lookup_insert_ne _ _ _ _ (not_eq_sym (usage_key_not_scenario _))).
    apply Hu.
  - intros k v Hk. destruct (decide ("scenario-" +:+ x = k)) as [<- | Hne].
    + rewrite lookup_insert_eq. intros [= <-]. now eexists.
    + rewrite lookup_insert_ne by exact Hne. now apply Hs.
Qed.

Lemma well_shaped_report m x r :
  well_shaped m -> well_shaped (<["report-" +:+ x := VReport r]> m).
Proof.
  intros [Hu Hs]. split.
  - intros v.
    rewrite (lookup_insert_ne _ _ _ _ (not_eq_sym (usage_key_not_report _))).
    apply Hu.
  - intros k v Hk. destruct (decide ("report-" +:+ x = k)) as [<- | Hne].
    + discriminate Hk.
    + rewrite lookup_insert_ne by exact Hne. now apply Hs.
Qed.

(** Every route keeps the table well shaped. *)
Lemma handle_well_shaped req w r w' :
  handle req w = (Return r, w') -> well_shaped (kv w) -> well_shaped (kv w').
Proof.
  destruct w as [m c t fs lg]. intros H Hm. step.
  destruct req as [| | b | b | | b]; unfold_handlers.
  - inversion H; subst. exact Hm.
  - step. destruct fs as [| [] fs]; step; inversion H; subst; exact Hm.
  - destruct b as [u |]; step.
    2: { inversion H; subst. exact Hm. }
    destruct fs as [| [] fs]; step; inversion H; subst; step;
      first [exact Hm | now apply well_shaped_usage].
  - destruct b as [o |]; step.
    2: { inversion H; subst. exact Hm. }
    destruct fs as [| [] [| [] [| [] fs]]]; step; inversion H; subst; step;
      first [ exact Hm
            | now apply well_shaped_scenario
            | now apply well_shaped_usage, well_shaped_scenario ].
  - step. destruct fs as [| [] fs]; step; inversion H; subst; exact Hm.
  - destruct b as [[[mt |] o] |]; step.
    2, 3: inversion H; subst; exact Hm.
    destruct fs as [| [] [| [] [| [] fs]]]; step; inversion H; subst; step;
      first [ exact Hm
            | now apply well_shaped_report
            | now apply well_shaped_usage, well_shaped_report ].
Qed.

(** On a well-shaped table the values under ["scenario-"] are all scenarios,
    so reading them as scenarios drops none of them. *)
Lemma as_scenarios_complete (m : gmap string value) :
  well_shaped m ->
  let vs := map snd (filter (fun e => String.prefix "scenario-" (fst e))
                       (map_to_list m)) in
  map VScenario (as_scenarios vs) = vs.
Proof.
  intros [_ Hs]. cbv zeta.
  assert (Hall : Forall (fun e : string * value => m !! e.1 = Some e.2)
                   (map_to_list m)).
  { apply Forall_forall. intros [k v] Hin.
    now apply elem_of_map_to_list in Hin. }
  induction Hall as [| [k v] l Hkv _ IH]; [reflexivity |].
  rewrite filter_cons. cbn [fst snd] in *.
  destruct (decide (String.prefix "scenario-" k)) as [Hk | Hk]; [| exact IH].
  destruct (Hs k v) as [s ->]; [now apply Is_true_true | exact Hkv |].
  cbn. f_equal. exact IH.
Qed.

End Routes.

(** ** Runway status and recommendations *)

Section Advice.

Import App.

(** Comparisons of a quotient of integers with an integer, by cross
    multiplication. *)
Lemma Qlt_bool_div_r (k a b : Z) :
  0 < b ->
  JS.Qlt_bool (inject_Z k) (inject_Z a / inject_Z b) = (k * b <? a).
Proof.
  intros Hb. destruct b as [| pb | pb]; try lia.
  apply Bool.eq_iff_eq_true. rewrite Qlt_bool_iff, Z.ltb_lt.
  rewrite <- Qmake_Qdiv. unfold Qlt. cbn [Qnum Qden inject_Z]. lia.
Qed.

Lemma Qlt_bool_div_l (k a b : Z) :
  0 < b ->
  JS.Qlt_bool (inject_Z a / inject_Z b) (inject_Z k) = (a <? k * b).
Proof.
  intros Hb. destruct b as [| pb | pb]; try lia.
  apply Bool.eq_iff_eq_true. rewrite Qlt_bool_iff, Z.ltb_lt.
  rewrite <- Qmake_Qdiv. unfold Qlt. cbn [Qnum Qden inject_Z]. lia.
Qed.

Lemma Qlt_bool_Z (a b : Z) :
  JS.Qlt_bool (inject_Z a) (inject_Z b) = (a <? b).
Proof. unfold JS.Qlt_bool. cbn. now rewrite !Z.mul_1_r. Qed.

(** The runway against a number of months, on the integers. *)
Lemma runway_gt_months (p : params) (k : Z) :
  JS.gt (runwayMonths p) (JS.of_Z k)
  = if 0 <? totalMonthlyBurn p
    then k * totalMonthlyBurn p <? currentCash p
    else k <? 999.
Proof.
  unfold runwayMonths.
  destruct (Z.ltb_spec 0 (totalMonthlyBurn p)) as [Hpos | Hle].
  - rewrite div_nonzero by lia. cbn [JS.gt JS.lt JS.of_Z].
    now apply Qlt_bool_div_r.
  - cbn [JS.gt JS.lt JS.of_Z]. apply Qlt_bool_Z.
Qed.

Lemma runway_lt_months (p : params) (k : Z) :
  JS.lt (runwayMonths p) (JS.of_Z k)
  = if 0 <? totalMonthlyBurn p
    then currentCash p <? k * totalMonthlyBurn p
    else 999 <? k.
Proof.
  unfold runwayMonths.
  destruct (Z.ltb_spec 0 (totalMonthlyBurn p)) as [Hpos | Hle].
  - rewrite div_nonzero by lia. cbn [JS.lt JS.of_Z].
    now apply Qlt_bool_div_l.
  - cbn [JS.lt JS.of_Z]. apply Qlt_bool_Z.
Qed.

Lemma runway_ge_months (p : params) (k : Z) :
  JS.ge (runwayMonths p) (JS.of_Z k)
  = negb (JS.lt (runwayMonths p) (JS.of_Z k)).
Proof.
  destruct (runway_finite p) as [q ->]. reflexivity.
Qed.

(** The break-even count against a number of customers, for a positive
    price. *)
Lemma break_even_gt_customers (p : params) (k : Z) :
  0 < productPrice p ->
  JS.gt (breakEvenCustomers p) (JS.of_Z k)
  = (k * productPrice p <? totalMonthlyBurn p).
Proof.
  intros Hprice. unfold breakEvenCustomers.
  rewrite div_nonzero by lia. cbn [JS.ceil JS.gt JS.lt JS.of_Z].
  rewrite Qlt_bool_Z.
  destruct (Qceiling_div_bounds (totalMonthlyBurn p) (productPrice p) Hprice)
    as [Hlo Hhi].
  apply Bool.eq_iff_eq_true. rewrite !Z.ltb_lt. split; intros H; nia.
Qed.

(** The types of the recommendations, rule by rule. *)
Lemma recommendation_types (p : params) :
  map type (getAIRecommendations p)
  = (if JS.lt (runwayMonths p) (JS.of_Z 3) then ["critical"] else [])
    ++ (if 0 <=? netCashFlow p then ["positive"] else [])
    ++ (if (10 <? employees p) && JS.lt (runwayMonths p) (JS.of_Z 6)
        then ["warning"] else [])
    ++ (if (productPrice p <? 100)
           && JS.gt (breakEvenCustomers p) (JS.of_Z 500)
        then ["opportunity"] else []).
Proof.
  unfold getAIRecommendations, push_if.
  destruct (JS.lt (runwayMonths p) (JS.of_Z 3));
    destruct (0 <=? netCashFlow p);
    destruct ((10 <? employees p) && JS.lt (runwayMonths p) (JS.of_Z 6));
    destruct ((productPrice p <? 100)
              && JS.gt (breakEvenCustomers p) (JS.of_Z 500));
    reflexivity.
Qed.

(** X1. The runway status, by integer thresholds, for parameters in the
    exact range: Healthy when nothing is burnt or the cash exceeds twelve
    months of burn, Cautious when it covers six to twelve months, Critical
    below six.  The status computed on the doubles and the one computed on
    the exact quotient are the same. *)
Theorem runway_status_thresholds (p : params) (Hrange : exact_range p) :
  Double.runwayStatus p
  = (if (totalMonthlyBurn p <=? 0)
        || (12 * totalMonthlyBurn p <? currentCash p)
     then {| Client.color := "bg-green-500"; Client.text := "Healthy";
             Client.level := "safe" |}
     else if 6 * totalMonthlyBurn p <=? currentCash p
     then {| Client.color := "bg-yellow-500"; Client.text := "Cautious";
             Client.level := "warning" |}
     else {| Client.color := "bg-red-500"; Client.text := "Critical";
             Client.level := "danger" |})
  /\ Client.runwayStatus p = Double.runwayStatus p.
Proof.
  assert (Hexact :
    Client.runwayStatus p
    = if (totalMonthlyBurn p <=? 0)
         || (12 * totalMonthlyBurn p <? currentCash p)
      then {| Client.color := "bg-green-500"; Client.text := "Healthy";
              Client.level := "safe" |}
      else if 6 * totalMonthlyBurn p <=? currentCash p
      then {| Client.color := "bg-yellow-500"; Client.text := "Cautious";
              Client.level := "warning" |}
      else {| Client.color := "bg-red-500"; Client.text := "Critical";
              Client.level := "danger" |}).
  { unfold Client.runwayStatus, Client.getRunwayStatus.
    rewrite runway_gt_months, runway_ge_months, runway_lt_months.
    destruct (Z.ltb_spec 0 (totalMonthlyBurn p)) as [Hpos | Hle].
    - destruct (Z.leb_spec (totalMonthlyBurn p) 0); [lia |].
      cbn [orb]. rewrite (Z.leb_antisym (currentCash p)). reflexivity.
    - destruct (Z.leb_spec (totalMonthlyBurn p) 0); [| lia]. reflexivity. }
  assert (Hdouble :
    Double.runwayStatus p
    = if (totalMonthlyBurn p <=? 0)
         || (12 * totalMonthlyBurn p <? currentCash p)
      then {| Client.color := "bg-green-500"; Client.text := "Healthy";
              Client.level := "safe" |}
      else if 6 * totalMonthlyBurn p <=? currentCash p
      then {| Client.color := "bg-yellow-500"; Client.text := "Cautious";
              Client.level := "warning" |}
      else {| Client.color := "bg-red-500"; Client.text := "Critical";
              Client.level := "danger" |}).
  { unfold Double.runwayStatus, Double.getRunwayStatus, Double.gt, Double.ge.
    rewrite !double_runway_cmp by exact Hrange.
    destruct (Z.ltb_spec 0 (totalMonthlyBurn p)) as [Hpos | Hle].
    - destruct (Z.leb_spec (totalMonthlyBurn p) 0); [lia |]. cbn [orb].
      destruct (Z.compare_spec (currentCash p) (12 * totalMonthlyBurn p));
        destruct (Z.ltb_spec (12 * totalMonthlyBurn p) (currentCash p));
        try lia; try reflexivity;
        destruct (Z.compare_spec (currentCash p) (6 * totalMonthlyBurn p));
        destruct (Z.leb_spec (6 * totalMonthlyBurn p) (currentCash p));
        try lia; reflexivity.
    - destruct (Z.leb_spec (totalMonthlyBurn p) 0); [| lia]. reflexivity. }
  split; [exact Hdouble | now rewrite Hexact, Hdouble].
Qed.

Lemma runway_status_thresholds_witness :
  exact_range initial
  /\ Client.text (Double.runwayStatus initial) = "Critical"
  /\ Client.runwayStatus initial = Double.runwayStatus initial.
Proof.
  assert (Hrange : exact_range initial)
    by (unfold exact_range, within; vm_compute; intuition discriminate).
  destruct (runway_status_thresholds initial Hrange) as [H1 H2].
  split; [exact Hrange |]. split; [rewrite H1; reflexivity | exact H2].
Defined.

(** The titles of the recommendations, rule by rule. *)
Lemma recommendation_titles (p : params) :
  map title (getAIRecommendations p)
  = (if JS.lt (runwayMonths p) (JS.of_Z 3)
     then ["Critical Cash Situation"] else [])
    ++ (if 0 <=? netCashFlow p then ["Profitable Operations"] else [])
    ++ (if (10 <? employees p) && JS.lt (runwayMonths p) (JS.of_Z 6)
        then ["High Burn from Team Size"] else [])
    ++ (if (productPrice p <? 100)
           && JS.gt (breakEvenCustomers p) (JS.of_Z 500)
        then ["Pricing Opportunity"] else []).
Proof.
  unfold getAIRecommendations, push_if.
  destruct (JS.lt (runwayMonths p) (JS.of_Z 3));
    destruct (0 <=? netCashFlow p);
    destruct ((10 <? employees p) && JS.lt (runwayMonths p) (JS.of_Z 6));
    destruct ((productPrice p <? 100)
              && JS.gt (breakEvenCustomers p) (JS.of_Z 500));
    reflexivity.
Qed.

(** X2. On the states the sliders can reach, a profitable scenario is never
    told about team size or pricing: its recommendations are "Profitable
    Operations", preceded by "Critical Cash Situation" when the cash covers
    less than three months of burn. *)
Theorem profitable_advice_in_slider_range (p : params)
  (Hrange : in_slider_range p) (Hprofit : 0 <= netCashFlow p) :
  map title (getAIRecommendations p)
  = if currentCash p <? 3 * totalMonthlyBurn p
    then ["Critical Cash Situation"; "Profitable Operations"]
    else ["Profitable Operations"].
Proof.
  destruct (slider_range_guards p Hrange) as [Hprice Hburn].
  rewrite recommendation_titles, break_even_gt_customers, !runway_lt_months
    by exact Hprice.
  assert (Hrev : monthlyRevenue p <= 120 * productPrice p).
  { unfold in_slider_range, monthlyRevenue in *. nia. }
  assert (H3 : (10 <? employees p) = false).
  { apply Z.ltb_ge.
    unfold in_slider_range, netCashFlow, totalMonthlyBurn,
      monthlySalaryCost in *. lia. }
  assert (H4 : (500 * productPrice p <? totalMonthlyBurn p) = false).
  { apply Z.ltb_ge. unfold netCashFlow in *. lia. }
  rewrite H3, H4, Bool.andb_false_r. cbn [andb].
  destruct (Z.ltb_spec 0 (totalMonthlyBurn p)); [| lia].
  destruct (Z.leb_spec 0 (netCashFlow p)); [| lia].
  destruct (currentCash p <? 3 * totalMonthlyBurn p); reflexivity.
Qed.

Lemma profitable_advice_in_slider_range_witness :
  in_slider_range lean_and_profitable
  /\ 0 <= netCashFlow lean_and_profitable
  /\ map title (getAIRecommendations lean_and_profitable)
     = ["Critical Cash Situation"; "Profitable Operations"].
Proof.
  assert (Hrange : in_slider_range lean_and_profitable)
    by (unfold in_slider_range; cbn; lia).
  assert (Hprofit : 0 <= netCashFlow lean_and_profitable)
    by (vm_compute; discriminate).
  split; [exact Hrange |]. split; [exact Hprofit |].
  exact (profitable_advice_in_slider_range _ Hrange Hprofit).
Defined.

(** X3. The alarming recommendations agree with the status light: "Critical
    Cash Situation" and "High Burn from Team Size" are only given when the
    runway status is Critical. *)
Theorem alarming_advice_means_critical_status (p : params) (t : string)
  (Ht : t = "Critical Cash Situation" \/ t = "High Burn from Team Size")
  (Hin : In t (map title (getAIRecommendations p))) :
  Client.text (Client.runwayStatus p) = "Critical".
Proof.
  rewrite recommendation_titles in Hin.
  unfold Client.runwayStatus, Client.getRunwayStatus.
  rewrite runway_gt_months, runway_ge_months.
  rewrite !runway_lt_months in *.
  assert (Hcases :
    (if 0 <? totalMonthlyBurn p
     then currentCash p <? 3 * totalMonthlyBurn p else 999 <? 3) = true
    \/ (if 0 <? totalMonthlyBurn p
        then currentCash p <? 6 * totalMonthlyBurn p else 999 <? 6) = true).
  { rewrite !in_app_iff in Hin.
    destruct Hin as [Hin | [Hin | [Hin | Hin]]].
    - left. destruct (if 0 <? totalMonthlyBurn p then _ else _);
        [reflexivity | destruct Hin].
    - destruct (0 <=? netCashFlow p); [| destruct Hin].
      destruct Hin as [<- | []]. destruct Ht; discriminate.
    - right.
      destruct (10 <? employees p); [| destruct Hin]. cbn [andb] in Hin.
      destruct (if 0 <? totalMonthlyBurn p then _ else _);
        [reflexivity | destruct Hin].
    - destruct (_ && _); [| destruct Hin].
      destruct Hin as [<- | []]. destruct Ht; discriminate. }
  destruct (Z.ltb_spec 0 (totalMonthlyBurn p)) as [Hpos | Hle].
  - assert (Hlow : currentCash p < 6 * totalMonthlyBurn p).
    { destruct Hcases as [Hc | Hc]; apply Z.ltb_lt in Hc; lia. }
    destruct (Z.ltb_spec (12 * totalMonthlyBurn p) (currentCash p)); [lia |].
    destruct (Z.ltb_spec (currentCash p) (6 * totalMonthlyBurn p)); [| lia].
    reflexivity.
  - destruct Hcases; discriminate.
Qed.

Lemma alarming_advice_means_critical_status_witness :
  In "Critical Cash Situation" (map title (getAIRecommendations initial))
  /\ Client.text (Client.runwayStatus initial) = "Critical".
Proof.
  assert (Hin : In "Critical Cash Situation"
                  (map title (getAIRecommendations initial)))
    by (now left).
  split; [exact Hin |].
  exact (alarming_advice_means_critical_status initial _
           (or_introl eq_refl) Hin).
Defined.

End Advice.

(** ** The shape of the cash projection *)

Section ProjectionShape.

Import App.







(** The entry of the chart at position [i]. *)
Lemma projection_lookup (p : params) (i : nat) (e : point) :
  generateProjectionData p !! i = Some e ->
  (i < 12)%nat /\ e = client_entry p (Z.of_nat (S i)).
Proof.
  rewrite client_projection_closed. unfold one_to_twelve. intros H.
  do 12 (destruct i as [| i];
         [cbn in H; injection H as <-; split; [lia | reflexivity] |]).
  discriminate H.
Qed.

(** The entry of the chart of the doubles at position [i]. *)
Lemma double_projection_lookup (p : params) (i : nat) (e : Double.point) :
  exact_range p ->
  Double.generateProjectionData p !! i = Some e ->
  (i < 12)%nat /\ e = double_point (client_entry p (Z.of_nat (S i))).
Proof.
  intros Hr. rewrite double_client_projection by exact Hr.
  unfold one_to_twelve. intros H.
  do 12 (destruct i as [| i];
         [cbn in H; injection H as <-; split; [lia | reflexivity] |]).
  discriminate H.
Qed.

(** Beyond the exact range the rounding of the doubles shows.  With a burn
    of 2^52 + 1: at a price equal to it and a burn of three times the price
    plus one, the break-even count is 3 where the exact ceiling is 4; a cash
    of twelve times the burn plus four gives a runway of exactly 12 and the
    status Cautious where the exact quotient gives Healthy; and a cash of
    three times the burn plus one gives a runway of exactly 3 while the
    chart still shows a cash of 2 in month 3. *)
Lemma rounding_beyond_exact_range :
  let burn := 2 ^ 52 + 1 in
  Double.breakEvenCustomers (burn_only (3 * burn + 1) burn 0) = Double.Int 3
  /\ breakEvenCustomers (burn_only (3 * burn + 1) burn 0) = JS.of_Z 4
  /\ Client.text (Double.runwayStatus (burn_only burn 10 (12 * burn + 4)))
     = "Cautious"
  /\ Client.text (Client.runwayStatus (burn_only burn 10 (12 * burn + 4)))
     = "Healthy"
  /\ Double.gt (Double.runwayMonths (burn_only burn 10 (3 * burn + 1))) 3
     = false
  /\ map Double.cash
       (firstn 3 (Double.generateProjectionData
                    (burn_only burn 10 (3 * burn + 1))))
     = [Double.Int 9007199254740996; Double.Int 4503599627370499;
        Double.Int 2].
Proof. cbv zeta. repeat split; vm_compute; reflexivity. Qed.

(** X5. For parameters in the exact range, with a positive burn and a
    non-negative revenue, the chart never shows the cash at zero before the
    runway figure says so: when the balance of month [k] is zero, the runway
    is at most [k] months.  Without any revenue the two agree exactly. *)
Theorem zero_cash_not_before_runway (p : params) (i : nat)
  (e : Double.point) (Hrange : exact_range p)
  (Hburn : 0 < totalMonthlyBurn p) (Hrev : 0 <= monthlyRevenue p)
  (He : Double.generateProjectionData p !! i = Some e) :
  (Double.cash e = Double.Int 0 ->
   Double.gt (Double.runwayMonths p) (Z.of_nat (S i)) = false)
  /\ (monthlyRevenue p = 0 ->
      Double.gt (Double.runwayMonths p) (Z.of_nat (S i)) = false ->
      Double.cash e = Double.Int 0).
Proof.
  destruct (double_projection_lookup p i e Hrange He) as [Hi ->].
  unfold Double.gt. rewrite double_runway_cmp by exact Hrange.
  destruct (Z.ltb_spec 0 (totalMonthlyBurn p)); [| lia].
  unfold double_point, client_entry, netCashFlow. cbn [cash Double.cash].
  destruct (Z.compare_spec (currentCash p)
              (Z.of_nat (S i) * totalMonthlyBurn p)) as [Heq | Hlt | Hgt];
    split; try reflexivity.
  - intros Hnone _. f_equal. rewrite Hnone. nia.
  - intros Hnone _. f_equal. rewrite Hnone. nia.
  - intros [= Hzero]. nia.
  - intros _ Hfalse. discriminate Hfalse.
Qed.

Lemma zero_cash_not_before_runway_witness :
  exact_range initial
  /\ 0 < totalMonthlyBurn initial
  /\ 0 <= monthlyRevenue initial
  /\ (exists e, Double.generateProjectionData initial !! 2%nat = Some e
                /\ Double.cash e = Double.Int 0)
  /\ Double.gt (Double.runwayMonths initial) 3 = false.
Proof.
  assert (Hrange : exact_range initial)
    by (unfold exact_range, within; vm_compute; intuition discriminate).
  assert (Hburn : 0 < totalMonthlyBurn initial) by reflexivity.
  assert (Hrev : 0 <= monthlyRevenue initial) by (vm_compute; discriminate).
  split; [exact Hrange |].
  split; [exact Hburn |]. split; [exact Hrev |].
  split; [eexists; split; vm_compute; reflexivity |].
  refine (proj1 (zero_cash_not_before_runway initial 2 _ Hrange Hburn Hrev
                   _) _).
  - vm_compute. reflexivity.
  - reflexivity.
Defined.

End ProjectionShape.

(** ** Counters between the component, the local storage and the server *)

Section Counters.

Import Client.

Lemma digit_of_pretty_char (d : N) :
  (d < 10)%N -> digit_value 10 (pretty_N_char d) = Some d.
Proof.
  intros Hd.
  assert (d = 0 \/ d = 1 \/ d = 2 \/ d = 3 \/ d = 4 \/ d = 5 \/ d = 6 \/ d = 7
          \/ d = 8 \/ d = 9)%N as Hc by lia.
  repeat (destruct Hc as [-> | Hc]; [reflexivity |]). now subst.
Qed.

Lemma parse_pretty_go (x : N) :
  (0 < x)%N ->
  exists k : N, forall (s : string) (acc : option N),
    parse_digits 10 (pretty_N_go x s) acc
    = parse_digits 10 s
        (Some (match acc with Some a => a * 10 ^ k + x | None => x end)%N).
Proof.
  induction (N.lt_wf_0 x) as [x _ IH]. intros Hx.
  assert (Hmod : (x `mod` 10 < 10)%N) by (apply N.mod_lt; lia).
  assert (Hdm := N.div_mod x 10 ltac:(lia)).
  destruct (decide (x `div` 10 = 0)%N) as [Hz | Hnz].
  - exists 1%N. intros s acc. rewrite pretty_N_go_step by exact Hx.
    rewrite Hz, pretty_N_go_0. cbn [parse_digits].
    rewrite digit_of_pretty_char by exact Hmod.
    f_equal. f_equal. destruct acc; lia.
  - destruct (IH (x `div` 10)%N) as [k Hk].
    { apply N.div_lt; lia. } { lia. }
    exists (k + 1)%N. intros s acc. rewrite pretty_N_go_step by exact Hx.
    rewrite Hk. cbn [parse_digits].
    rewrite digit_of_pretty_char by exact Hmod.
    f_equal. f_equal. rewrite N.pow_add_r. destruct acc; lia.
Qed.

Lemma pretty_go_head (x : N) (s : string) :
  (0 < x)%N ->
  exists d rest, (0 < d < 10)%N /\ pretty_N_go x s = String (pretty_N_char d) rest.
Proof.
  revert s. induction (N.lt_wf_0 x) as [x _ IH]. intros s Hx.
  assert (Hmod : (x `mod` 10 < 10)%N) by (apply N.mod_lt; lia).
  assert (Hdm := N.div_mod x 10 ltac:(lia)).
  rewrite pretty_N_go_step by exact Hx.
  destruct (decide (x `div` 10 = 0)%N) as [Hz | Hnz].
  - rewrite Hz, pretty_N_go_0. exists (x `mod` 10)%N, s. split; [lia | reflexivity].
  - apply IH; [apply N.div_lt; lia | lia].
Qed.

Lemma parseInt_decimal (d : N) (rest : string) :
  (0 < d < 10)%N ->
  let s := String (pretty_N_char d) rest in
  parseInt s
  = match parse_digits 10 s None with
    | Some n => JS.of_Z (1 * Z.of_N n)
    | None => JS.NaN
    end
  /\ parseInt ("-" +:+ s)
     = match parse_digits 10 s None with
       | Some n => JS.of_Z (-1 * Z.of_N n)
       | None => JS.NaN
       end.
Proof.
  intros Hd.
  assert (d = 1 \/ d = 2 \/ d = 3 \/ d = 4 \/ d = 5 \/ d = 6 \/ d = 7
          \/ d = 8 \/ d = 9)%N as Hc by lia.
  repeat (destruct Hc as [-> | Hc]; [split; reflexivity |]).
  subst. split; reflexivity.
Qed.

Lemma parseInt_digits (x : N) :
  (0 < x)%N ->
  parseInt (pretty_N_go x "") = JS.of_Z (Z.of_N x)
  /\ parseInt ("-" +:+ pretty_N_go x "") = JS.of_Z (- Z.of_N x).
Proof.
  intros Hx.
  destruct (parse_pretty_go x Hx) as [k Hk].
  specialize (Hk "" None). cbn [parse_digits] in Hk.
  destruct (pretty_go_head x "" Hx) as (d & rest & Hd & Hs).
  rewrite Hs in *.
  destruct (parseInt_decimal d rest Hd) as [Hpos Hneg]. cbv zeta in *.
  rewrite Hpos, Hneg, Hk. split; f_equal; lia.
Qed.

Lemma parseInt_toString (z : Z) : parseInt (toString z) = JS.of_Z z.
Proof.
  unfold toString, pretty, pretty_Z.
  destruct z as [| x | x]; [reflexivity | |].
  - unfold pretty, pretty_positive, pretty, pretty_N.
    destruct (decide (N.pos x = 0%N)); [discriminate |].
    apply (parseInt_digits (N.pos x)). lia.
  - unfold pretty, pretty_positive, pretty, pretty_N.
    destruct (decide (N.pos x = 0%N)); [discriminate |].
    apply (parseInt_digits (N.pos x)). lia.
Qed.

Lemma toString_nonempty (z : Z) : toString z <> "".
Proof.
  unfold toString, pretty, pretty_Z.
  destruct z as [| x | x]; [discriminate | | discriminate].
  unfold pretty, pretty_positive, pretty, pretty_N.
  destruct (decide (N.pos x = 0%N)); [discriminate |].
  destruct (pretty_go_head (N.pos x) "" ltac:(lia)) as (d & rest & _ & ->).
  discriminate.
Qed.

(** X6. The local-storage fallback is a round trip for counters up to 2^53
    in magnitude, which [toString] prints digit by digit: the counters
    [saveUsageData] writes when [fetch] rejects are the ones [loadUsageData]
    hands to the setters when [fetch] rejects again, whatever the storage
    held before. *)
Theorem local_storage_round_trip (scenarios reports : Z)
  (localStorage : gmap string string)
  (Hscenarios : within scenarios) (Hreports : within reports) :
  loadUsageData None (saveUsageData scenarios reports None localStorage)
  = (Some (JS.of_Z scenarios), Some (JS.of_Z reports)).
Proof.
  unfold loadUsageData, saveUsageData.
  rewrite lookup_insert_ne by discriminate.
  rewrite !lookup_insert_eq.
  unfold set_if_stored.
  pose proof (toString_nonempty scenarios) as Hs.
  pose proof (toString_nonempty reports) as Hr.
  destruct (toString scenarios) eqn:Es; [contradiction |].
  destruct (toString reports) eqn:Er; [contradiction |].
  rewrite <- Es, <- Er, !parseInt_toString. reflexivity.
Qed.

Lemma local_storage_round_trip_witness :
  within 12 /\ within 3
  /\ loadUsageData None
       (saveUsageData 12 3 None {[ "cfh-scenarios" := "7" ]})
     = (Some (JS.of_Z 12), Some (JS.of_Z 3)).
Proof.
  assert (H12 : within 12)
    by (unfold within; vm_compute; intuition discriminate).
  assert (H3 : within 3)
    by (unfold within; vm_compute; intuition discriminate).
  split; [exact H12 |]. split; [exact H3 |].
  exact (local_storage_round_trip 12 3 {[ "cfh-scenarios" := "7" ]} H12 H3).
Defined.

(** X7. Last write wins, seen from the component: after a slider change or
    a generated report, once the save has reached a working store, a load
    gets exactly the counters the component holds after the change, whatever
    the store counted before.  For counters from -2^53 to below 2^53 these
    are the old scenarios counter plus one and the old reports counter after
    a slider change, and the old scenarios counter and the old reports
    counter plus one after a report. *)
Theorem saved_counters_are_loaded
  (st : state) (f : setter) (value : Z) (w : Server.world)
  (localStorage : gmap string string)
  (Hup : store_up 2 w)
  (Hscenarios : counter_range (scenariosAnalyzed st))
  (Hreports : counter_range (reportsGenerated st)) :
  let after_save (sent : Server.usage_update) :=
    snd (served (Server.POST_usage (Some sent)) w) in
  let load (sent : Server.usage_update) :=
    loadUsageData (fst (served Server.GET_usage (after_save sent)))
      localStorage in
  let moved := handleSliderChange st f value in
  let reported := handleGenerateReport st in
  load (snd moved)
    = (Some (JS.of_Z (scenariosAnalyzed (fst moved))),
       Some (JS.of_Z (reportsGenerated (fst moved))))
  /\ load (snd reported)
     = (Some (JS.of_Z (scenariosAnalyzed (fst reported))),
        Some (JS.of_Z (reportsGenerated (fst reported))))
  /\ Double.add (Double.Int (scenariosAnalyzed st)) (Double.Int 1)
     = Double.Int (scenariosAnalyzed (fst moved))
  /\ reportsGenerated (fst moved) = reportsGenerated st
  /\ Double.add (Double.Int (reportsGenerated st)) (Double.Int 1)
     = Double.Int (reportsGenerated (fst reported))
  /\ scenariosAnalyzed (fst reported) = scenariosAnalyzed st.
Proof.
  cbv zeta. destruct w as [m c t fs lg]. unfold store_up in Hup.
  cbn [Server.faults] in Hup.
  rewrite !double_succ by assumption.
  unfold served, Server.handle, Server.post_usage, Server.get_usage,
    Server.req_json, Server.try_catch, Server.bind, Server.kv_get,
    Server.kv_set, Server.store_op, Server.console_log, Server.ret,
    Server.Date_now, Server.json, Server.json_status,
    handleSliderChange, handleGenerateReport.
  destruct fs as [| [] [| [] fs]];
    try (exfalso; apply Hup; cbn; tauto);
    cbn [Server.faults Server.kv Server.clock Server.ticks Server.console
         Server.set_kv Server.set_faults fst snd Server.new_scenarios
         Server.new_reports scenariosAnalyzed reportsGenerated];
    rewrite ?lookup_insert_eq; repeat split.
Qed.

Lemma saved_counters_are_loaded_witness :
  store_up 2 counted_5_2
  /\ counter_range 0
  /\ loadUsageData
       (fst (served Server.GET_usage
               (snd (served
                       (Server.POST_usage
                          (Some (snd (handleSliderChange
                                        {| params := App.initial;
                                           scenariosAnalyzed := 0;
                                           reportsGenerated := 0 |}
                                        setEmployees 6))))
                       counted_5_2)))) ∅
     = (Some (JS.of_Z 1), Some (JS.of_Z 0)).
Proof.
  assert (Hup : store_up 2 counted_5_2) by (intros []).
  assert (H0 : counter_range 0)
    by (unfold counter_range; vm_compute; intuition discriminate).
  split; [exact Hup |]. split; [exact H0 |].
  exact (proj1 (saved_counters_are_loaded
                  {| params := App.initial; scenariosAnalyzed := 0;
                     reportsGenerated := 0 |}
                  setEmployees 6 counted_5_2 ∅ Hup H0 H0)).
Defined.

(** X8. When the store is down at load time the server answers 500, and
    [loadUsageData] then calls neither setter: it takes neither the default
    body of the error response nor the counters of the local storage. *)
Theorem failed_load_sets_nothing (w : Server.world)
  (localStorage : gmap string string)
  (Hdown : hd false (Server.faults w) = true) :
  exists r,
    fst (served Server.GET_usage w) = Some r
    /\ Server.status r = 500
    /\ Server.json_body r = Server.BUsage Server.default_usage
    /\ loadUsageData (Some r) localStorage = (None, None).
Proof.
  destruct w as [m c t fs lg]. cbn [Server.faults] in Hdown.
  destruct fs as [| [] fs]; try discriminate Hdown.
  eexists. split; [reflexivity |]. repeat split.
Qed.

Lemma failed_load_sets_nothing_witness :
  hd false (Server.faults first_operation_throws) = true
  /\ exists r,
       fst (served Server.GET_usage first_operation_throws) = Some r
       /\ loadUsageData (Some r) {[ "cfh-scenarios" := "7" ]} = (None, None).
Proof.
  split; [reflexivity |].
  destruct (failed_load_sets_nothing first_operation_throws
              {[ "cfh-scenarios" := "7" ]} eq_refl)
    as (r & Hr & _ & _ & Hload).
  exists r. split; [exact Hr | exact Hload].
Defined.

End Counters.

(** ** Routes one after the other *)

Section RouteSequences.

Import Server.

Ltac unfold_routes :=
  unfold handle, get_health, get_usage, post_usage, post_scenario,
    get_scenarios, post_generate_report, generateAIInsights,
    generateProjections, destructure_metrics, req_json, try_catch, bind,
    kv_get, kv_set, kv_getByPrefix, store_op, console_log, ret, throw,
    Date_now, json, json_status in *.

Ltac run :=
  cbn [faults kv clock ticks console set_kv set_faults metrics_field
       fst snd status json_body] in *.

Ltac usage_lookup :=
  rewrite ?lookup_insert_eq,
    ?(lookup_insert_ne _ _ _ _ (not_eq_sym (usage_key_not_scenario _))),
    ?(lookup_insert_ne _ _ _ _ (not_eq_sym (usage_key_not_report _))).

(** Every route answers: the [catch] block of a handler does not throw. *)
Lemma handle_answers (req : request) (w : world) :
  exists r w', handle req w = (Return r, w').
Proof.
  destruct w as [m c t fs lg].
  destruct req as [| | b | b | | b]; unfold_routes; run.
  - eauto.
  - destruct fs as [| [] fs]; run; eauto.
  - destruct b as [u |]; run; [| eauto].
    destruct fs as [| [] fs]; run; eauto.
  - destruct b as [o |]; run; [| eauto].
    destruct fs as [| [] [| [] [| [] fs]]]; run; eauto.
  - destruct fs as [| [] fs]; run; eauto.
  - destruct b as [[[mt |] o] |]; run; eauto.
    destruct fs as [| [] [| [] [| [] fs]]]; run; eauto.
Qed.

(** X9. The three reading routes never write: whatever the store holds and
    whichever operations throw, the table after GET /health, GET /usage and
    GET /scenarios is the table before. *)
Theorem reading_routes_never_write (w : world) :
  kv (snd (handle GET_health w)) = kv w
  /\ kv (snd (handle GET_usage w)) = kv w
  /\ kv (snd (handle GET_scenarios w)) = kv w.
Proof.
  destruct w as [m c t fs lg]. unfold_routes.
  destruct fs as [| [] fs]; run; repeat split.
Qed.

(** X10. A handler reports an error on the console exactly when it answers
    500, and then with exactly one line; with an answer of 200 the error
    lines of the console are as they were. *)
Theorem errors_are_logged_once (req : request) (w : world) :
  exists r w',
    handle req w = (Return r, w')
    /\ ((status r = 200 /\ error_lines w' = error_lines w)
        \/ (status r = 500
            /\ exists msg, String.prefix "Error " msg = true
                           /\ error_lines w' = error_lines w ++ [msg])).
Proof.
  assert (Hline : forall lg msg,
            String.prefix "Error " msg = true ->
            List.filter (String.prefix "Error ") (lg ++ [msg])
            = List.filter (String.prefix "Error ") lg ++ [msg]).
  { intros lg msg Hmsg. rewrite List.filter_app. cbn [List.filter].
    now rewrite Hmsg. }
  destruct w as [m c t fs lg]. unfold error_lines.
  destruct req as [| | b | b | | b]; unfold_routes.
  - run. do 2 eexists. split; [reflexivity |]. now left.
  - run. destruct fs as [| [] fs]; run; do 2 eexists;
      (split; [reflexivity |]);
      first [now left
            | right; split; [reflexivity |]; eexists; split;
              [| apply Hline]; reflexivity].
  - destruct b as [u |]; run.
    2: { do 2 eexists. split; [reflexivity |]. right.
         split; [reflexivity |]. eexists. split; [| apply Hline];
           reflexivity. }
    destruct fs as [| [] fs]; run; do 2 eexists;
      (split; [reflexivity |]);
      first [now left
            | right; split; [reflexivity |]; eexists; split;
              [| apply Hline]; reflexivity].
  - destruct b as [o |]; run.
    2: { do 2 eexists. split; [reflexivity |]. right.
         split; [reflexivity |]. eexists. split; [| apply Hline];
           reflexivity. }
    destruct fs as [| [] [| [] [| [] fs]]]; run; do 2 eexists;
      (split; [reflexivity |]);
      first [now left
            | right; split; [reflexivity |]; eexists; split;
              [| apply Hline]; reflexivity].
  - run. destruct fs as [| [] fs]; run; do 2 eexists;
      (split; [reflexivity |]);
      first [now left
            | right; split; [reflexivity |]; eexists; split;
              [| apply Hline]; reflexivity].
  - destruct b as [[[mt |] o] |]; run.
    2, 3: do 2 eexists; (split; [reflexivity |]); right;
      (split; [reflexivity |]); eexists; (split; [| apply Hline]);
      reflexivity.
    destruct fs as [| [] [| [] [| [] fs]]]; run; do 2 eexists;
      (split; [reflexivity |]);
      first [now left
            | right; split; [reflexivity |]; eexists; split;
              [| apply Hline]; reflexivity].
Qed.

(** X11. A body that does not parse is answered 500 with the error text of
    the route and reported on the console with one line that starts with the
    error message of the route, and no store operation is attempted: the
    table and the pending faults are as they were.  A report request without
    a [metrics] object is treated the same way. *)
Theorem bad_bodies_are_refused (w : world) (o : payload) :
  let refused (req : request) (text line : string) :=
    fst (handle req w) = Return (json_status (BError text) 500)
    /\ kv (snd (handle req w)) = kv w
    /\ faults (snd (handle req w)) = faults w
    /\ exists printed,
         String.prefix line printed = true
         /\ error_lines (snd (handle req w)) = error_lines w ++ [printed] in
  refused (POST_usage None)
    "Failed to save usage data" "Error saving usage data:"
  /\ refused (POST_scenario None)
       "Failed to save scenario" "Error saving scenario:"
  /\ refused (POST_generate_report None)
       "Failed to generate report" "Error generating report:"
  /\ refused (POST_generate_report
                (Some {| metrics_field := None; other_fields := o |}))
       "Failed to generate report" "Error generating report:".
Proof.
  cbv zeta. destruct w as [m c t fs lg]. unfold error_lines.
  unfold_routes. run.
  rewrite !List.filter_app.
  repeat split; eexists; (split; [| reflexivity]); reflexivity.
Qed.

(** X12. A posted usage record is read back: after a successful POST /usage,
    GET /usage on a working store answers 200 with the counters of the
    request and, as [lastUpdated], the instant the server read for it,
    whatever was stored before. *)
Theorem usage_write_then_read (u : usage_update) (w : world)
  (Hup : store_up 2 w) :
  let posted := handle (POST_usage (Some u)) w in
  fst posted
    = Return (json (BUsageSaved true (new_scenarios u) (new_reports u)))
  /\ fst (handle GET_usage (snd posted))
     = Return
         (json (BUsage {| scenarios := new_scenarios u;
                          reports := new_reports u;
                          lastUpdated := Some (Date_reading w) |})).
Proof.
  cbv zeta. destruct w as [m c t fs lg]. unfold store_up in Hup.
  unfold Date_reading. unfold_routes. run.
  destruct fs as [| [] [| [] fs]];
    try (exfalso; apply Hup; cbn; tauto);
    run; usage_lookup; repeat split.
Qed.

(** A successful POST /scenario on a store without faults. *)
Lemma post_scenario_served (o : payload) (w : world) :
  faults w = [] ->
  exists r w',
    handle (POST_scenario (Some o)) w = (Return r, w')
    /\ status r = 200
    /\ faults w' = []
    /\ stored_usage w' = bump_scenarios (stored_usage w).
Proof.
  destruct w as [m c t fs lg]. cbn [faults]. intros ->.
  unfold stored_usage, bump_scenarios. unfold_routes. run.
  do 2 eexists. split; [reflexivity |]. run. usage_lookup. repeat split.
Qed.

(** X13. Serialized increments are not lost: on a store without faults, a
    list of POST /scenario requests handled one after the other raises the
    scenarios counter by the length of the list, as long as the counter
    stays between -2^53 and 2^53 (where the [+= 1] of doubles is exact), and
    leaves the reports counter alone. *)
Theorem serialized_scenarios_counted (bodies : list payload) (w : world)
  (Hup : faults w = [])
  (Hlow : - 2 ^ 53 <= scenarios (stored_usage w))
  (Hhigh : scenarios (stored_usage w) + Z.of_nat (length bodies) <= 2 ^ 53) :
  let w' := run_requests (map (fun o => POST_scenario (Some o)) bodies) w in
  scenarios (stored_usage w')
    = scenarios (stored_usage w) + Z.of_nat (length bodies)
  /\ increments (length bodies) (scenarios (stored_usage w))
     = Double.Int (scenarios (stored_usage w'))
  /\ reports (stored_usage w') = reports (stored_usage w)
  /\ lastUpdated (stored_usage w') = lastUpdated (stored_usage w).
Proof.
  cbv zeta.
  assert (Hiter : forall n c,
            - 2 ^ 53 <= c -> c + Z.of_nat n <= 2 ^ 53 ->
            increments n c = Double.Int (c + Z.of_nat n)).
  { induction n as [| n IHn]; intros c Hc Hn.
    - unfold increments. cbn. f_equal. lia.
    - change (increments (S n) c)
        with (Double.add (increments n c) (Double.Int 1)).
      rewrite IHn by lia. rewrite double_succ.
      + f_equal. lia.
      + unfold counter_range. lia. }
  assert (Hrun : forall bodies w, faults w = [] ->
            let w' := run_requests
                        (map (fun o => POST_scenario (Some o)) bodies) w in
            scenarios (stored_usage w')
              = scenarios (stored_usage w) + Z.of_nat (length bodies)
            /\ reports (stored_usage w') = reports (stored_usage w)
            /\ lastUpdated (stored_usage w') = lastUpdated (stored_usage w)).
  { clear. intros bodies. induction bodies as [| o bodies IH]; intros w Hup.
    - cbn. repeat split. lia.
    - cbn [map run_requests fold_left length].
      destruct (post_scenario_served o w Hup)
        as (r & w1 & Hrun & _ & Hf & Hu).
      rewrite Hrun. cbn [snd]. fold (run_requests
        (map (fun o => POST_scenario (Some o)) bodies) w1).
      destruct (IH w1 Hf) as (Hs & Hr & Hl).
      rewrite Hs, Hr, Hl, Hu. cbn. repeat split. lia. }
  destruct (Hrun bodies w Hup) as (Hs & Hr & Hl).
  split; [exact Hs |]. split; [| split; assumption].
  rewrite Hs. apply Hiter; assumption.
Qed.

(** X18. What a writing route returns is what it stored: after a successful
    POST /scenario the table holds, under the returned id, the fields of the
    request (a [timestamp] of the client dropped) with the server's
    timestamp; after a successful POST /generate-report it holds the
    returned report under the returned id. *)
Theorem returned_record_is_stored (w : world) :
  (forall (o : payload) (sid : string) (w' : world),
     handle (POST_scenario (Some o)) w
       = (Return (json (BScenarioSaved true sid)), w') ->
     kv w' !! sid
     = Some (VScenario {| scenarioData := spread_except ["timestamp"] o;
                          timestamp := second_reading w |}))
  /\ (forall (d : reportData) (rid : string) (rep : report) (w' : world),
        handle (POST_generate_report (Some d)) w
          = (Return (json (BReport true rid rep)), w') ->
        kv w' !! rid = Some (VReport rep) /\ id rep = rid).
Proof.
  destruct w as [m c t fs lg]. unfold second_reading, Date_reading.
  split.
  - intros o sid w' H. unfold_routes. run.
    destruct fs as [| [] [| [] [| [] fs]]]; run;
      inversion H; subst; clear H; run;
      rewrite lookup_insert_ne by apply usage_key_not_scenario;
      apply lookup_insert_eq.
  - intros [[mt |] o] rid rep w' H; unfold_routes; run;
      [| discriminate H].
    destruct fs as [| [] [| [] [| [] fs]]]; run;
      inversion H; subst; clear H; run;
      (split; [| reflexivity]);
      rewrite lookup_insert_ne by apply usage_key_not_report;
      apply lookup_insert_eq.
Qed.

(** X16. Key spaces never mix: starting from a well-shaped table, after any
    list of requests the usage key still holds a usage record and every key
    under ["scenario-"] still holds a scenario, so GET /scenarios reads all
    of the stored scenarios. *)
Theorem requests_keep_table_well_shaped (reqs : list request) (w : world)
  (Hw : well_shaped (kv w)) :
  well_shaped (kv (run_requests reqs w))
  /\ map VScenario
       (as_scenarios (stored_under "scenario-" (kv (run_requests reqs w))))
     = stored_under "scenario-" (kv (run_requests reqs w)).
Proof.
  assert (Hkeep : well_shaped (kv (run_requests reqs w))).
  { revert w Hw. induction reqs as [| req reqs IH]; intros w Hw.
    - exact Hw.
    - cbn [run_requests fold_left]. apply IH.
      destruct (handle req w) as [[r | e] w1] eqn:Hrun.
      + exact (handle_well_shaped _ _ _ _ Hrun Hw).
      + exfalso. destruct (handle_answers req w) as (r & w2 & Hr).
        congruence. }
  split; [exact Hkeep |].
  exact (as_scenarios_complete _ Hkeep).
Qed.

(** The scenarios GET /scenarios reads are those stored under a key that
    starts with ["scenario-"]. *)
Lemma stored_scenario_iff (m : gmap string value) (x : scenario) :
  In x (as_scenarios (stored_under "scenario-" m))
  <-> exists k, String.prefix "scenario-" k = true
                /\ m !! k = Some (VScenario x).
Proof.
  unfold as_scenarios, stored_under.
  rewrite <- list_elem_of_In, list_elem_of_omap. split.
  - intros (v & Hv & Hx). apply list_elem_of_In, in_map_iff in Hv.
    destruct Hv as ([k v'] & <- & Hin). cbn [snd] in *.
    apply list_elem_of_In, list_elem_of_filter in Hin.
    destruct Hin as [Hk Hin]. apply elem_of_map_to_list in Hin.
    cbn [fst] in Hk. apply Is_true_true in Hk.
    destruct v' as [u | s | r]; try discriminate Hx.
    injection Hx as ->. eauto.
  - intros (k & Hk & Hm). exists (VScenario x). split; [| reflexivity].
    apply list_elem_of_In, in_map_iff. exists (k, VScenario x).
    split; [reflexivity |].
    apply list_elem_of_In, list_elem_of_filter. split.
    + cbn [fst]. now apply Is_true_true.
    + now apply elem_of_map_to_list.
Qed.

Lemma scenario_key_prefix (x : string) :
  String.prefix "scenario-" ("scenario-" +:+ x) = true.
Proof. destruct x; reflexivity. Qed.

(** The head of the sorted list is the scenario that is strictly newer than
    all the others. *)
Lemma newest_sorts_first (l : list scenario) (s : scenario) :
  In s l ->
  (forall x, In x l -> x = s \/ (timestamp x < timestamp s)%N) ->
  exists rest, sort by_timestamp_desc l = s :: rest.
Proof.
  intros Hs Hnew.
  pose proof (sort_perm by_timestamp_desc l) as Hperm.
  pose proof (sort_newest_first l) as Hsorted.
  destruct (sort by_timestamp_desc l) as [| h rest] eqn:E.
  - apply Permutation_nil_r in Hperm. subst l. destruct Hs.
  - exists rest. f_equal.
    assert (Hh : In h l).
    { apply list_elem_of_In. rewrite Hperm. left. }
    destruct (Hnew h Hh) as [-> | Hlt]; [reflexivity | exfalso].
    assert (Hs' : In s (h :: rest)).
    { apply list_elem_of_In. rewrite <- Hperm. now apply list_elem_of_In. }
    destruct Hs' as [-> | Hrest]; [lia |].
    apply StronglySorted_inv in Hsorted. destruct Hsorted as [_ Hall].
    rewrite Forall_forall in Hall.
    apply list_elem_of_In in Hrest. specialize (Hall s Hrest). cbn in Hall.
    lia.
Qed.

(** X14. A scenario that has just been saved is listed first: after a
    successful POST /scenario whose timestamp is later than that of every
    stored scenario, GET /scenarios on a working store starts with the new
    scenario. *)
Theorem saved_scenario_listed_first (o : payload) (w : world)
  (Hup : store_up 4 w)
  (Hnew : forall k s,
     String.prefix "scenario-" k = true ->
     kv w !! k = Some (VScenario s) ->
     (timestamp s < second_reading w)%N) :
  exists rest,
    fst (handle GET_scenarios (snd (handle (POST_scenario (Some o)) w)))
    = Return
        (json (BScenarios
                 ({| scenarioData := spread_except ["timestamp"] o;
                     timestamp := second_reading w |} :: rest))).
Proof.
  destruct w as [m c t fs lg]. unfold store_up in Hup. cbn [kv] in Hnew.
  set (s := {| scenarioData := spread_except ["timestamp"] o;
               timestamp := second_reading
                 {| kv := m; clock := c; ticks := t; faults := fs;
                    console := lg |} |}).
  assert (Hhead : forall u,
    exists rest,
      sort by_timestamp_desc
        (as_scenarios
           (stored_under "scenario-"
              (<[usage_key := VUsage u]>
                 (<["scenario-" +:+ pretty (c + hd 0 t)%N := VScenario s]>
                    m))))
      = s :: rest).
  { intros u. apply newest_sorts_first.
    - apply stored_scenario_iff.
      exists ("scenario-" +:+ pretty (c + hd 0 t)%N).
      split; [apply scenario_key_prefix |].
      rewrite lookup_insert_ne by apply usage_key_not_scenario.
      apply lookup_insert_eq.
    - intros x Hx. apply stored_scenario_iff in Hx.
      destruct Hx as (k & Hk & Hx).
      rewrite lookup_insert_ne in Hx
        by (intros <-; discriminate Hk).
      destruct (decide ("scenario-" +:+ pretty (c + hd 0 t)%N = k))
        as [<- | Hne].
      + rewrite lookup_insert_eq in Hx. injection Hx as <-. now left.
      + rewrite lookup_insert_ne in Hx by exact Hne.
        right. exact (Hnew k x Hk Hx). }
  subst s. unfold second_reading, Date_reading in *. unfold_routes. run.
  unfold stored_under in Hhead.
  destruct fs as [| [] [| [] [| [] [| [] fs]]]];
    try (exfalso; apply Hup; cbn; tauto); run;
    match goal with
    | |- context [<[usage_key := VUsage ?u]> _] =>
        destruct (Hhead u) as [rest ->]
    end;
    eexists; reflexivity.
Qed.

Lemma StronglySorted_app_inv {A} (R : A -> A -> Prop) (l1 l2 : list A) :
  StronglySorted R (l1 ++ l2) ->
  forall x y, In x l1 -> In y l2 -> R x y.
Proof.
  induction l1 as [| a l1 IH]; intros Hs x y Hx Hy; [destruct Hx |].
  cbn [app] in Hs. apply StronglySorted_inv in Hs. destruct Hs as [Hs Ha].
  destruct Hx as [<- | Hx].
  - rewrite Forall_forall in Ha. apply Ha, list_elem_of_In, in_or_app.
    now right.
  - now apply IH.
Qed.

(** X15. GET /scenarios on a working store returns the most recent
    scenarios: all of them when at most ten are stored, ten otherwise, and
    no scenario that is left out is newer than one that is returned. *)
Theorem ten_most_recent_scenarios (w : world)
  (Hup : hd false (faults w) = false) :
  exists l every,
    fst (handle GET_scenarios w) = Return (json (BScenarios l))
    /\ Permutation (as_scenarios (stored_under "scenario-" (kv w))) every
    /\ l = firstn 10 every
    /\ length l
       = Nat.min 10
           (length (as_scenarios (stored_under "scenario-" (kv w))))
    /\ (forall x y,
          In x l -> In y (skipn 10 every) ->
          (timestamp y <= timestamp x)%N).
Proof.
  destruct w as [m c t fs lg]. cbn [faults kv] in *.
  exists (slice0 10 (sort by_timestamp_desc
                       (as_scenarios (stored_under "scenario-" m)))),
    (sort by_timestamp_desc (as_scenarios (stored_under "scenario-" m))).
  split; [| split; [apply sort_perm | split; [reflexivity | split]]].
  - unfold_routes. run.
    destruct fs as [| [] fs]; try discriminate Hup; reflexivity.
  - unfold slice0. rewrite length_take, sort_length. reflexivity.
  - unfold slice0.
    pose proof (sort_newest_first
                  (as_scenarios (stored_under "scenario-" m))) as Hs.
    rewrite <- (firstn_skipn 10) in Hs.
    intros x y Hx Hy.
    exact (StronglySorted_app_inv _ _ _ Hs x y Hx Hy).
Qed.

(** X17. The server's critical runway insight and the client's status light
    use the same threshold: for the metrics of a client scenario, the report
    carries the critical Runway insight exactly when the client shows the
    status Critical, and the Runway opportunity only when it shows
    Healthy. *)
Theorem critical_insight_iff_critical_status
  (p : App.params) (o : payload) (w : world) :
  exists ins,
    generateAIInsights (report_input p o) w = (Return ins, w)
    /\ (In ("Runway", "critical")
          (map (fun i => (category i, type i)) ins)
        <-> Client.text (Client.runwayStatus p) = "Critical")
    /\ (In ("Runway", "opportunity")
          (map (fun i => (category i, type i)) ins)
        -> Client.text (Client.runwayStatus p) = "Healthy").
Proof.
  eexists. split; [reflexivity |].
  set (lt6 := JS.lt (App.runwayMonths p) (JS.of_Z 6)).
  set (gt18 := JS.gt (App.runwayMonths p) (JS.of_Z 18)).
  assert (Hpairs :
    map (fun i => (category i, type i))
      (insights_of
         {| totalMonthlyBurn := App.totalMonthlyBurn p;
            monthlyRevenue := App.monthlyRevenue p;
            runwayMonths := App.runwayMonths p;
            employees := App.employees p;
            productPrice := App.productPrice p;
            currentCash := App.currentCash p |})
    = [("Cash Flow",
        if App.totalMonthlyBurn p <? App.monthlyRevenue p
        then "positive" else "warning")]
      ++ (if lt6 then [("Runway", "critical")]
          else if gt18 then [("Runway", "opportunity")] else [])
      ++ (if App.productPrice p <? 200
          then [("Pricing", "opportunity")] else [])).
  { unfold insights_of, lt6, gt18.
    cbn [runwayMonths totalMonthlyBurn monthlyRevenue productPrice].
    destruct (App.totalMonthlyBurn p <? App.monthlyRevenue p);
      destruct (JS.lt (App.runwayMonths p) (JS.of_Z 6));
      destruct (JS.gt (App.runwayMonths p) (JS.of_Z 18));
      destruct (App.productPrice p <? 200); reflexivity. }
  rewrite Hpairs. clear Hpairs.
  assert (Hstatus :
    Client.text (Client.runwayStatus p)
    = if JS.gt (App.runwayMonths p) (JS.of_Z 12) then "Healthy"
      else if lt6 then "Critical" else "Cautious").
  { unfold Client.runwayStatus, Client.getRunwayStatus, lt6.
    rewrite runway_ge_months.
    destruct (JS.gt (App.runwayMonths p) (JS.of_Z 12));
      destruct (JS.lt (App.runwayMonths p) (JS.of_Z 6)); reflexivity. }
  rewrite Hstatus. clear Hstatus.
  assert (Hord : (lt6 = true -> JS.gt (App.runwayMonths p) (JS.of_Z 12) = false)
                 /\ (gt18 = true ->
                     JS.gt (App.runwayMonths p) (JS.of_Z 12) = true)).
  { unfold lt6, gt18. rewrite !runway_gt_months, runway_lt_months.
    destruct (Z.ltb_spec 0 (App.totalMonthlyBurn p)).
    - rewrite !Z.ltb_lt, Z.ltb_ge. lia.
    - split; [discriminate | reflexivity]. }
  destruct Hord as [Hlow Hhigh].
  rewrite !in_app_iff.
  destruct lt6.
  - rewrite (Hlow eq_refl). split; [split; [reflexivity | intros _] |].
    + right. left. now left.
    + intros [[H | []] | [[H | []] | H]]; try discriminate H.
      destruct (App.productPrice p <? 200); [| destruct H].
      destruct H as [H | []]. discriminate H.
  - split; [split |].
    + intros [[H | []] | [H | H]]; try discriminate H.
      * destruct gt18; [| destruct H].
        destruct H as [H | []]. discriminate H.
      * destruct (App.productPrice p <? 200); [| destruct H].
        destruct H as [H | []]. discriminate H.
    + destruct (JS.gt (App.runwayMonths p) (JS.of_Z 12)); discriminate.
    + intros [[H | []] | [H | H]]; try discriminate H.
      * destruct gt18; [| destruct H]. now rewrite (Hhigh eq_refl).
      * destruct (App.productPrice p <? 200); [| destruct H].
        destruct H as [H | []]. discriminate H.
Qed.

Lemma usage_write_then_read_witness :
  store_up 2 counted_5_2
  /\ fst (handle GET_usage
            (snd (handle (POST_usage
                            (Some {| new_scenarios := 7; new_reports := 1 |}))
                    counted_5_2)))
     = Return (json (BUsage {| scenarios := 7; reports := 1;
                               lastUpdated := Some 2000%N |})).
Proof.
  assert (Hup : store_up 2 counted_5_2) by (intros []).
  split; [exact Hup |].
  exact (proj2 (usage_write_then_read
                  {| new_scenarios := 7; new_reports := 1 |} counted_5_2 Hup)).
Defined.

Lemma serialized_scenarios_counted_witness :
  faults idle = []
  /\ - 2 ^ 53 <= scenarios (stored_usage idle)
  /\ scenarios (stored_usage idle) + 2 <= 2 ^ 53
  /\ scenarios
       (stored_usage
          (run_requests
             [POST_scenario (Some [("employees", 5)]);
              POST_scenario (Some [("employees", 6)])] idle))
     = 0 + 2.
Proof.
  assert (Hlow : - 2 ^ 53 <= scenarios (stored_usage idle))
    by (vm_compute; discriminate).
  assert (Hhigh : scenarios (stored_usage idle) + 2 <= 2 ^ 53)
    by (vm_compute; discriminate).
  split; [reflexivity |]. split; [exact Hlow |]. split; [exact Hhigh |].
  exact (proj1 (serialized_scenarios_counted
                  [[("employees", 5)]; [("employees", 6)]] idle eq_refl
                  Hlow Hhigh)).
Defined.

Lemma returned_record_is_stored_witness :
  kv (snd (handle (POST_scenario (Some [("employees", 5); ("timestamp", 1)]))
             same_millisecond))
    !! "scenario-1700000000000"
  = Some (VScenario {| scenarioData := [("employees", 5)];
                       timestamp := 1700000000000 |}).
Proof.
  apply (proj1 (returned_record_is_stored same_millisecond)
           [("employees", 5); ("timestamp", 1)] "scenario-1700000000000").
  vm_compute. reflexivity.
Defined.

Lemma requests_keep_table_well_shaped_witness :
  well_shaped (kv idle)
  /\ well_shaped
       (kv (run_requests
              [POST_scenario (Some [("employees", 5)]);
               POST_generate_report (Some example_report);
               POST_usage (Some {| new_scenarios := 9; new_reports := 9 |})]
              idle)).
Proof.
  split; [exact well_shaped_empty |].
  exact (proj1 (requests_keep_table_well_shaped _ idle well_shaped_empty)).
Defined.

Lemma saved_scenario_listed_first_witness :
  store_up 4 one_old_scenario
  /\ exists rest,
       fst (handle GET_scenarios
              (snd (handle (POST_scenario (Some [("employees", 5)]))
                      one_old_scenario)))
       = Return
           (json (BScenarios
                    ({| scenarioData := [("employees", 5)];
                        timestamp := 1700000000000 |} :: rest))).
Proof.
  assert (Hup : store_up 4 one_old_scenario) by (intros []).
  split; [exact Hup |].
  apply (saved_scenario_listed_first [("employees", 5)] one_old_scenario Hup).
  intros k s _ Hs. unfold one_old_scenario in Hs. cbn [kv] in Hs.
  apply lookup_singleton_Some in Hs.
  destruct Hs as [_ [= <-]]. reflexivity.
Defined.

Lemma ten_most_recent_scenarios_witness :
  hd false (faults one_old_scenario) = false
  /\ exists l,
       fst (handle GET_scenarios one_old_scenario)
       = Return (json (BScenarios l))
       /\ length l = 1%nat.
Proof.
  split; [reflexivity |].
  destruct (ten_most_recent_scenarios one_old_scenario eq_refl)
    as (l & every & Hrun & _ & _ & Hlen & _).
  exists l. split; [exact Hrun |].
  rewrite Hlen. vm_compute. reflexivity.
Defined.

Lemma critical_insight_iff_critical_status_witness :
  Client.text (Client.runwayStatus App.initial) = "Critical"
  /\ exists ins,
       generateAIInsights (report_input App.initial []) idle
       = (Return ins, idle)
       /\ In ("Runway", "critical")
            (map (fun i => (category i, type i)) ins).
Proof.
  assert (Hc : Client.text (Client.runwayStatus App.initial) = "Critical")
    by reflexivity.
  split; [exact Hc |].
  destruct (critical_insight_iff_critical_status App.initial [] idle)
    as (ins & Hrun & Hiff & _).
  exists ins. split; [exact Hrun |]. apply Hiff. exact Hc.
Defined.

End RouteSequences.
